(** * Link click tracker: a shallow embedding of [link_tracker.py]

    The Flask application keeps one JSON document ([click_data.json]) and a
    CSV mirror of it ([click_data.csv]).  Its handlers are embedded below as
    computations in a small state-and-exception monad over the two files and
    the console; values are the JSON values Python's [json] module produces,
    and the Python operations the handlers apply to them ([d[k]], [len],
    iteration, [.get], [.append], [in]) are written out with the exceptions
    they raise.  The statistics page is represented by what the expressions
    of its template evaluate to, with the exception the template ends in when
    one of them cannot be evaluated. *)

From Stdlib Require Import ZArith NArith Ascii String List Lia.
From stdpp Require Import base option list strings gmap.

Local Open Scope string_scope.
Local Open Scope Z_scope.
Local Open Scope list_scope.

Set Warnings "-register-all".

(** ** Values *)

(** What [json.load] returns: [None], [bool], [int], [float] (kept as its
    literal, the program never computes with one), [str], [list] and [dict].
    A [dict] keeps its items in insertion order; lookups take the first item
    with the key.  Characters are code points below 256, which is what a WSGI
    server hands over for header values. *)
Inductive json : Type :=
| JNull
| JBool (b : bool)
| JInt (z : Z)
| JFloat (lit : string)
| JStr (s : string)
| JArr (l : list json)
| JObj (m : list (string * json)).

(** The exceptions that occur in the program. *)
Inductive exn : Type :=
| KeyError (k : string)
| TypeError
| AttributeError
| JSONDecodeError
| IOError
| UnicodeDecodeError
| UndefinedError.

Inductive result (A : Type) : Type :=
| Ok (a : A)
| Raise (e : exn).
Arguments Ok {A} a.
Arguments Raise {A} e.

(** ** Python dictionaries as item lists *)

Fixpoint dict_lookup {V : Type} (k : string) (m : list (string * V)) : option V :=
  match m with
  | [] => None
  | (k', v) :: m' => if String.eqb k k' then Some v else dict_lookup k m'
  end.

(** [d[k] = v] for a key that may or may not be there: the item keeps its
    place when the key exists and goes last otherwise. *)
Fixpoint dict_store {V : Type} (k : string) (v : V) (m : list (string * V)) : list (string * V) :=
  match m with
  | [] => [(k, v)]
  | (k', v') :: m' =>
      if String.eqb k k' then (k', v) :: m' else (k', v') :: dict_store k v m'
  end.

(** ** Python operations on JSON values *)

(** [v[k]] for a string key [k]. *)
Definition py_getitem (v : json) (k : string) : result json :=
  match v with
  | JObj m => match dict_lookup k m with
              | Some x => Ok x
              | None => Raise (KeyError k)
              end
  | _ => Raise TypeError
  end.

(** [v.get(k, dflt)]: only dictionaries have the method. *)
Definition py_get (v : json) (k : string) (dflt : json) : result json :=
  match v with
  | JObj m => Ok (default dflt (dict_lookup k m))
  | _ => Raise AttributeError
  end.

(** Iterating: a list yields its elements, a string its characters, a
    dictionary its keys; nothing else is iterable. *)
Definition chars (s : string) : list json :=
  map (λ c, JStr (String c EmptyString)) (list_ascii_of_string s).

Definition py_iter (v : json) : result (list json) :=
  match v with
  | JArr l => Ok l
  | JStr s => Ok (chars s)
  | JObj m => Ok (map (λ kv, JStr kv.1) m)
  | _ => Raise TypeError
  end.

(** [len(v)]. *)
Definition py_len (v : json) : result Z :=
  match v with
  | JArr l => Ok (Z.of_nat (length l))
  | JStr s => Ok (Z.of_nat (String.length s))
  | JObj m => Ok (Z.of_nat (length m))
  | _ => Raise TypeError
  end.

(** [v.append(x)]: only lists have the method; the result is the list
    object after the call. *)
Definition py_append (v x : json) : result json :=
  match v with
  | JArr l => Ok (JArr (l ++ [x]))
  | _ => Raise AttributeError
  end.

(** [s == v] for a string [s]: a string equals only the same string. *)
Definition py_eq_str (s : string) (v : json) : bool :=
  match v with
  | JStr t => String.eqb s t
  | _ => false
  end.

(** [s in l] for a string [s] and a list [l]. *)
Definition py_in (s : string) (l : list json) : bool := existsb (py_eq_str s) l.

(** [[f(x) for x in l]], stopping at the first exception. *)
Fixpoint comprehension {A B : Type} (f : A → result B) (l : list A) : result (list B) :=
  match l with
  | [] => Ok []
  | x :: l' =>
      match f x with
      | Raise e => Raise e
      | Ok y => match comprehension f l' with
                | Raise e => Raise e
                | Ok ys => Ok (y :: ys)
                end
      end
  end.

(** ** Strings *)

(** [str.isspace] on the code points below 256: TAB to CR, FS to US, the
    space, NEL and the no-break space. *)
Definition is_space (c : ascii) : bool :=
  let n := N_of_ascii c in
  ((9 <=? n) && (n <=? 13) || (28 <=? n) && (n <=? 32) || (n =? 133) || (n =? 160))%N.

(** [s.split(sep)] for a one-character separator. *)
Fixpoint py_split (sep : ascii) (s : string) : list string :=
  match s with
  | EmptyString => [EmptyString]
  | String c s' =>
      if Ascii.eqb c sep then EmptyString :: py_split sep s'
      else match py_split sep s' with
           | p :: ps => String c p :: ps
           | [] => [String c EmptyString]
           end
  end.

Fixpoint py_lstrip (s : string) : string :=
  match s with
  | EmptyString => EmptyString
  | String c s' => if is_space c then py_lstrip s' else s
  end.

Fixpoint py_rstrip (s : string) : string :=
  match s with
  | EmptyString => EmptyString
  | String c s' =>
      match py_rstrip s' with
      | EmptyString => if is_space c then EmptyString else String c EmptyString
      | r => String c r
      end
  end.

(** [s.strip()]. *)
Definition py_strip (s : string) : string := py_rstrip (py_lstrip s).

(** Truth value of [headers.get(k)]: [None] and the empty string are false. *)
Definition truthy (o : option string) : bool :=
  match o with
  | Some (String _ _) => true
  | _ => false
  end.

(** ** Dates *)

(** A naive [datetime]: the fields of a broken-down time. *)
Record datetime : Type := Datetime {
  year : N; month : N; day : N;
  hour : N; minute : N; second : N; microsecond : N
}.

Definition digit (n : N) : ascii := ascii_of_N (48 + n mod 10).

(** [n] in decimal on [width] digits, zero-padded ([%0<width>d] for a value
    that fits, as every field of a [datetime] does). *)
Fixpoint zero_padded (width : nat) (n : N) (acc : string) : string :=
  match width with
  | O => acc
  | S w => zero_padded w (n / 10) (String (digit n) acc)
  end.

(** [d.isoformat()] of a naive datetime: the fraction is printed only when
    the microsecond field is not zero. *)
Definition isoformat (d : datetime) : string :=
  zero_padded 4 (year d) "-" +:+ zero_padded 2 (month d) "-" +:+ zero_padded 2 (day d) "T"
  +:+ zero_padded 2 (hour d) ":" +:+ zero_padded 2 (minute d) ":" +:+ zero_padded 2 (second d) EmptyString
  +:+ (if (microsecond d =? 0)%N then EmptyString
       else "." +:+ zero_padded 6 (microsecond d) EmptyString).

(** The host clock at one instant, as the two readings the C library offers:
    local wall-clock time and UTC. *)
Record clock : Type := Clock {
  localtime : datetime;
  gmtime : datetime
}.

(** [datetime.now()] is the local reading; [datetime.utcnow()] would be the
    other one. *)
Definition datetime_now (clk : clock) : datetime := localtime clk.
Definition datetime_utcnow (clk : clock) : datetime := gmtime clk.

(** ** The world the handlers run in *)

(** [click_data.json] as it is on disk, by what opening it and handing it to
    [json.load] does. *)
Inductive json_file : Type :=
| Unreadable            (** the path is there but the process cannot open it,
                            to read or to write (a directory, a file it has
                            no permission on): [open] raises [OSError]
                            (alias [IOError]) *)
| Undecodable           (** the bytes are not text in the locale's encoding:
                            the read raises [UnicodeDecodeError] *)
| Malformed             (** text that is not JSON: [json.load] raises
                            [JSONDecodeError] *)
| Document (j : json).  (** [json.load] returns [j] *)

(** A row of [click_data.csv]: the fields handed to [csv.writer.writerow]. *)
Definition csv_row : Type := list json.

Record world : Type := World {
  data_file : option json_file;
  csv_file : option (list csv_row);
  stdout : list string
}.

(** Computations: they read and write the world and end in a value or in an
    exception; what was written before an exception stays written. *)
Definition M (A : Type) : Type := world → result A * world.

#[global] Instance M_ret : MRet M := λ A a w, (Ok a, w).
#[global] Instance M_bind : MBind M := λ A B f m w,
  match m w with
  | (Ok a, w') => f a w'
  | (Raise e, w') => (Raise e, w')
  end.

Definition lift {A : Type} (r : result A) : M A := λ w, (r, w).

(** [try: body / except <classes>: handler]. *)
Definition try_except {A : Type} (body : M A) (caught : exn → bool) (handler : M A) : M A :=
  λ w, match body w with
       | (Raise e, w') => if caught e then handler w' else (Raise e, w')
       | r => r
       end.

Fixpoint for_each {A : Type} (l : list A) (body : A → M unit) : M unit :=
  match l with
  | [] => mret tt
  | x :: l' => body x;; for_each l' body
  end.

Definition print (line : string) : M unit :=
  λ w, (Ok tt, World (data_file w) (csv_file w) (stdout w ++ [line])).

(** ** Configuration *)

Definition TARGET_URL : string :=
  "https://developer.huaweicloud.com/intl/en-us/activity/c64bd713260a42e7872e4138a2aef2db".
Definition DATA_FILE : string := "click_data.json".
Definition CSV_FILE : string := "click_data.csv".

(** ** The store *)

(** [os.path.exists(DATA_FILE)]. *)
Definition data_file_exists : M bool := λ w, (Ok (bool_decide (is_Some (data_file w))), w).

(** [with open(DATA_FILE, 'r') as f: json.load(f)]. *)
Definition json_load : M json := λ w,
  match data_file w with
  | None => (Raise IOError, w)
  | Some Unreadable => (Raise IOError, w)
  | Some Undecodable => (Raise UnicodeDecodeError, w)
  | Some Malformed => (Raise JSONDecodeError, w)
  | Some (Document j) => (Ok j, w)
  end.

(** [with open(DATA_FILE, 'w') as f: json.dump(data, f, indent=2)].  On a
    path that cannot be opened, [open] raises and nothing is written.
    Otherwise the file is created or truncated and then holds the text of
    [data], which [json.load] reads back as [data]; a file that can be read
    is taken to be one that can be written, and a full disk is outside the
    model. *)
Definition json_dump (data : json) : M unit :=
  λ w, match data_file w with
       | Some Unreadable => (Raise IOError, w)
       | _ => (Ok tt, World (Some (Document data)) (csv_file w) (stdout w))
       end.

(** [open(CSV_FILE, 'w', newline='')] truncates the file. *)
Definition csv_open : M unit :=
  λ w, (Ok tt, World (data_file w) (Some []) (stdout w)).

Definition writerow (row : csv_row) : M unit :=
  λ w, (Ok tt, World (data_file w) (Some (default [] (csv_file w) ++ [row])) (stdout w)).

(** The literal [{"clicks": []}]. *)
Definition empty_log : json := JObj [("clicks", JArr [])].

Definition load_data : M json :=
  present ← data_file_exists;
  if present : bool then
    try_except json_load
      (λ e, match e with JSONDecodeError | IOError => true | _ => false end)
      (mret empty_log)
  else mret empty_log.

Definition csv_header : csv_row := [JStr "IP Address"; JStr "Timestamp"; JStr "User Agent"].

Definition save_data (data : json) : M unit :=
  json_dump data;;
  csv_open;;
  writerow csv_header;;
  clicks ← lift (py_getitem data "clicks");
  rows ← lift (py_iter clicks);
  for_each rows (λ click,
    ip ← lift (py_getitem click "ip");
    ts ← lift (py_getitem click "timestamp");
    ua ← lift (py_get click "user_agent" (JStr "N/A"));
    writerow [ip; ts; ua]).

(** ** Requests and responses *)

(** What the handlers read of a request: the header fields, by the names
    the program looks them up with ([request.headers.get] ignores the case of
    a name), and the address of the peer. *)
Record request : Type := Request {
  headers : gmap string string;
  remote_addr : string
}.

Inductive template : Type := stats_template | home_template.

(** One row of the visitor table: [loop.index] and what the three
    expressions of the row evaluate to.  An expression that is undefined
    prints as nothing ([None]); any other value is printed ([Some]). *)
Record visitor_row : Type := VisitorRow {
  row_index : nat;
  row_ip : option json;
  row_first_visit : string;
  row_user_agent : option json
}.

(** The part of a page that depends on the data: the home page has none, the
    statistics page has the visitor table or the line that says there are no
    visitors yet. *)
Inductive page_body : Type :=
| Instructions
| NoVisitors
| VisitorTable (rows : list visitor_row).

(** What a view returns: [redirect(url, code)], the page that
    [render_template_string] renders from a template and the variables passed
    to it, or [jsonify(payload)].  The static text of a page, and the
    [request.url_root] it shows, are not represented. *)
Inductive response : Type :=
| Redirect (location : string) (code : Z)
| RenderTemplate (t : template) (context : list (string * json)) (body : page_body)
| Jsonify (payload : json).

(** ** The template of the statistics page *)

(** [s[:n]] for a count [n] that is not negative. *)
Fixpoint py_slice_to (n : nat) (s : string) : string :=
  match n with
  | O => EmptyString
  | S n' =>
      match s with
      | EmptyString => EmptyString
      | String c s' => String c (py_slice_to n' s')
      end
  end.

(** [s.replace(old, new)] for one-character [old] and [new]. *)
Fixpoint py_replace (old new : ascii) (s : string) : string :=
  match s with
  | EmptyString => EmptyString
  | String c s' => String (if Ascii.eqb c old then new else c) (py_replace old new s')
  end.

Definition letter_T : ascii := ascii_of_N 84.
Definition blank : ascii := ascii_of_N 32.

(** The cell [{{ click.timestamp[:19].replace('T', ' ') }}] of the visitor
    table, for a click whose time stamp is the string [ts]. *)
Definition display_timestamp (ts : string) : string :=
  py_replace letter_T blank (py_slice_to 19 ts).

(** [click.name] in a template, for a name that no built-in type has as an
    attribute ([ip], [timestamp] and [user_agent] are such names): the item
    of a dictionary that has the key, and undefined for everything else. *)
Definition jinja_attr (v : json) (name : string) : option json :=
  match v with
  | JObj m => dict_lookup name m
  | _ => None
  end.

(** [{{ click.timestamp[:19].replace('T', ' ') }}]: a string is cut and
    rewritten.  An undefined value cannot be subscripted; a value of another
    type gives an undefined slice or has no [replace] to call; each way the
    template ends in [UndefinedError]. *)
Definition jinja_first_visit (ts : option json) : result string :=
  match ts with
  | Some (JStr s) => Ok (display_timestamp s)
  | _ => Raise UndefinedError
  end.

(** The rows of [{% for click in clicks %}], numbered from [index]. *)
Fixpoint visitor_rows (index : nat) (clicks : list json) : result (list visitor_row) :=
  match clicks with
  | [] => Ok []
  | click :: clicks' =>
      match jinja_first_visit (jinja_attr click "timestamp") with
      | Raise e => Raise e
      | Ok t =>
          match visitor_rows (S index) clicks' with
          | Raise e => Raise e
          | Ok rows =>
              Ok (VisitorRow index (jinja_attr click "ip") t (jinja_attr click "user_agent")
                  :: rows)
          end
      end
  end.

(** [{% if clicks %} ... {% for click in clicks %} ... {% else %} ...]
    for the elements [elems] that iterating [clicks] yields.  The template is
    rendered only after [len(clicks)] went through, so [clicks] is a list, a
    string or a dictionary: it is true exactly when it yields an element. *)
Definition render_visitors (elems : list json) : result page_body :=
  match elems with
  | [] => Ok NoVisitors
  | _ =>
      match visitor_rows 1 elems with
      | Raise e => Raise e
      | Ok rows => Ok (VisitorTable rows)
      end
  end.

Definition comma : ascii := ascii_of_N 44.

Definition get_client_ip (req : request) : string :=
  if truthy (headers req !! "X-Forwarded-For") then
    py_strip (hd EmptyString (py_split comma (default EmptyString (headers req !! "X-Forwarded-For"))))
  else if truthy (headers req !! "X-Real-IP") then
    default EmptyString (headers req !! "X-Real-IP")
  else remote_addr req.

(** After [data['clicks'].append(r)] the list inside [data] is the longer
    one: [data] with the list object [clicks] in its place. *)
Definition with_clicks (data clicks : json) : json :=
  match data with
  | JObj m => JObj (dict_store "clicks" clicks m)
  | _ => data
  end.

Definition track_click (req : request) (clk : clock) : M response :=
  let client_ip := get_client_ip req in
  let user_agent := default "Unknown" (headers req !! "User-Agent") in
  let timestamp := isoformat (datetime_now clk) in
  data ← load_data;
  clicks ← lift (py_getitem data "clicks");
  elems ← lift (py_iter clicks);
  existing_ips ← lift (comprehension (λ click, py_getitem click "ip") elems);
  (if negb (py_in client_ip existing_ips) then
     let click_record :=
       JObj [("ip", JStr client_ip); ("timestamp", JStr timestamp); ("user_agent", JStr user_agent)] in
     clicks' ← lift (py_append clicks click_record);
     save_data (with_clicks data clicks');;
     print ("New unique visitor recorded: " +:+ client_ip +:+ " at " +:+ timestamp)
   else
     print ("Returning visitor (not counted): " +:+ client_ip +:+ " at " +:+ timestamp));;
  mret (Redirect TARGET_URL 302).

Definition show_stats : M response :=
  data ← load_data;
  clicks ← lift (py_getitem data "clicks");
  total_unique ← lift (py_len clicks);
  clicks ← lift (py_getitem data "clicks");
  elems ← lift (py_iter clicks);
  body ← lift (render_visitors elems);
  mret (RenderTemplate stats_template
          [("total_unique", JInt total_unique); ("clicks", clicks);
           ("target_url", JStr TARGET_URL); ("data_file", JStr DATA_FILE);
           ("csv_file", JStr CSV_FILE)]
          body).

Definition api_stats : M response :=
  data ← load_data;
  clicks ← lift (py_getitem data "clicks");
  total ← lift (py_len clicks);
  clicks ← lift (py_getitem data "clicks");
  mret (Jsonify (JObj [("total_unique_visitors", JInt total); ("clicks", clicks);
                       ("target_url", JStr TARGET_URL)])).

Definition home : M response :=
  mret (RenderTemplate home_template [("target_url", JStr TARGET_URL)] Instructions).

(** * Vocabulary of the properties *)

(** ** The store as the handlers see it *)

(** What [load_data] makes of each state of the data file. *)
Definition loaded (f : option json_file) : result json :=
  match f with
  | None | Some Unreadable | Some Malformed => Ok empty_log
  | Some Undecodable => Raise UnicodeDecodeError
  | Some (Document j) => Ok j
  end.

(** The click list of a loaded value, when it has one. *)
Definition clicks_of (data : json) : option (list json) :=
  match data with
  | JObj m => match dict_lookup "clicks" m with
              | Some (JArr l) => Some l
              | _ => None
              end
  | _ => None
  end.

(** The click log a state of the store holds: the list under ["clicks"] in
    what [load_data] returns there, if there is one. *)
Definition store_clicks (w : world) : option (list json) :=
  match loaded (data_file w) with
  | Ok data => clicks_of data
  | Raise _ => None
  end.

Definition stored_log (w : world) : list json := default [] (store_clicks w).

(** The CSV row of one click, as the loop of [save_data] computes it. *)
Definition csv_row_of (click : json) : result csv_row :=
  match py_getitem click "ip" with
  | Raise e => Raise e
  | Ok ip =>
      match py_getitem click "timestamp" with
      | Raise e => Raise e
      | Ok ts =>
          match py_get click "user_agent" (JStr "N/A") with
          | Raise e => Raise e
          | Ok ua => Ok [ip; ts; ua]
          end
      end
  end.

(** ** Click records *)

Record ClickRecord : Type := {
  ip : string;
  timestamp : string;
  user_agent : string
}.

Definition record_json (r : ClickRecord) : json :=
  JObj [("ip", JStr (ip r)); ("timestamp", JStr (timestamp r));
        ("user_agent", JStr (user_agent r))].

Definition log_json (log : list ClickRecord) : json :=
  JObj [("clicks", JArr (record_json <$> log))].

Definition record_row (r : ClickRecord) : csv_row :=
  [JStr (ip r); JStr (timestamp r); JStr (user_agent r)].

(** A value that has what the handlers read from a click: the two keys
    subscripted without a default. *)
Definition is_record (v : json) : bool :=
  match v with
  | JObj m => bool_decide (is_Some (dict_lookup "ip" m))
              && bool_decide (is_Some (dict_lookup "timestamp" m))
  | _ => false
  end.

(** The data file can be opened for writing. *)
Definition data_writable (w : world) : bool :=
  match data_file w with
  | Some Unreadable => false
  | _ => true
  end.

(** The store holds a click log that can be written back: the data file is
    absent, or holds text that is not JSON, or holds an object whose
    ["clicks"] is a list of records. *)
Definition store_ok (w : world) : bool :=
  data_writable w &&
  match store_clicks w with
  | Some l => forallb is_record l
  | None => false
  end.

(** ** One invocation of the track handler *)

(** The record of a visit stamped [ts]. *)
Definition record_at (ts : string) (req : request) : ClickRecord :=
  {| ip := get_client_ip req;
     timestamp := ts;
     user_agent := default "Unknown" (headers req !! "User-Agent") |}.

(** The dictionary [track_click] builds for a new visitor. *)
Definition click_record (req : request) (clk : clock) : json :=
  JObj [("ip", JStr (get_client_ip req));
        ("timestamp", JStr (isoformat (datetime_now clk)));
        ("user_agent", JStr (default "Unknown" (headers req !! "User-Agent")))].

Definition new_visitor_line (req : request) (clk : clock) : string :=
  "New unique visitor recorded: " +:+ get_client_ip req +:+ " at " +:+ isoformat (datetime_now clk).

Definition returning_visitor_line (req : request) (clk : clock) : string :=
  "Returning visitor (not counted): " +:+ get_client_ip req +:+ " at " +:+ isoformat (datetime_now clk).

Definition say (line : string) (w : world) : world :=
  World (data_file w) (csv_file w) (stdout w ++ [line]).

(** ** Sequences of invocations *)

(** One call of the track endpoint: the request and the clock when it
    arrives. *)
Definition call : Type := request * clock.

Definition call_ip (c : call) : string := get_client_ip c.1.

Definition call_record (c : call) : ClickRecord :=
  record_at (isoformat (datetime_now c.2)) c.1.

(** The calls handled one after the other, each to its end before the next
    starts: the responses and the world left behind. *)
Fixpoint serve (calls : list call) (w : world) : list (result response) * world :=
  match calls with
  | [] => ([], w)
  | c :: cs =>
      let r := track_click c.1 c.2 w in
      let rs := serve cs r.2 in
      (r.1 :: rs.1, rs.2)
  end.

(** The first call from its address: no earlier call resolves to the same
    one. *)
Definition first_from (calls : list call) (i : nat) (c : call) : Prop :=
  calls !! i = Some c ∧
  ∀ j c', (j < i)%nat → calls !! j = Some c' → call_ip c' ≠ call_ip c.

(** ** The resolver in the words of its description *)

(** The text before the first comma ... *)
Fixpoint first_element (s : string) : string :=
  match s with
  | EmptyString => EmptyString
  | String c s' => if Ascii.eqb c comma then EmptyString else String c (first_element s')
  end.

Fixpoint drop_spaces (l : list ascii) : list ascii :=
  match l with
  | [] => []
  | c :: l' => if is_space c then drop_spaces l' else l
  end.

(** ... without the white space at its two ends. *)
Definition trim (s : string) : string :=
  string_of_list_ascii (rev (drop_spaces (rev (drop_spaces (list_ascii_of_string s))))).

(** A header counts when it is there ... *)
Definition present (h : gmap string string) (k : string) : option string := h !! k.

(** ... or, more narrowly, when it is there with a value that is not empty. *)
Definition present_nonempty (h : gmap string string) (k : string) : option string :=
  match h !! k with
  | Some EmptyString => None
  | o => o
  end.

Definition resolve_with (lookup : gmap string string → string → option string)
    (req : request) : string :=
  match lookup (headers req) "X-Forwarded-For" with
  | Some v => trim (first_element v)
  | None =>
      match lookup (headers req) "X-Real-IP" with
      | Some v => v
      | None => remote_addr req
      end
  end.

(** ** The statistics payload *)

Definition stats_payload (clicks : json) (total : Z) : json :=
  JObj [("total_unique_visitors", JInt total); ("clicks", clicks);
        ("target_url", JStr TARGET_URL)].

Definition stats_context (clicks : json) (total : Z) : list (string * json) :=
  [("total_unique", JInt total); ("clicks", clicks);
   ("target_url", JStr TARGET_URL); ("data_file", JStr DATA_FILE);
   ("csv_file", JStr CSV_FILE)].

(** ** Stores without a click list *)

(** What the three handlers do with a ["clicks"] value [v] that is not a
    list, on the store [w].  A value without a length stops all three with
    [TypeError].  A string or a dictionary is measured by the JSON view; the
    track handler fails on its first element, or at [append] when there is
    none; the HTML view fails in the template on its first element, or
    renders the page without visitors when there is none. *)
Definition not_a_list_outcome (req : request) (clk : clock) (w : world) (v : json) : Prop :=
  let answers (n : nat) :=
    api_stats w = (Ok (Jsonify (JObj [("total_unique_visitors", JInt (Z.of_nat n));
                                      ("clicks", v);
                                      ("target_url", JStr TARGET_URL)])), w) in
  let empty_value :=
    track_click req clk w = (Raise AttributeError, w) ∧
    show_stats w = (Ok (RenderTemplate stats_template
                          [("total_unique", JInt 0); ("clicks", v);
                           ("target_url", JStr TARGET_URL); ("data_file", JStr DATA_FILE);
                           ("csv_file", JStr CSV_FILE)]
                          NoVisitors), w) in
  let filled_value :=
    track_click req clk w = (Raise TypeError, w) ∧
    show_stats w = (Raise UndefinedError, w) in
  match v with
  | JArr _ => True
  | JNull | JBool _ | JInt _ | JFloat _ =>
      track_click req clk w = (Raise TypeError, w) ∧
      show_stats w = (Raise TypeError, w) ∧
      api_stats w = (Raise TypeError, w)
  | JStr s =>
      answers (String.length s) ∧
      match s with EmptyString => empty_value | String _ _ => filled_value end
  | JObj items =>
      answers (length items) ∧
      match items with [] => empty_value | _ :: _ => filled_value end
  end.

(** ** Sample inputs *)

(** Three visits, not in the order of their addresses. *)
Definition three_visits : list ClickRecord :=
  [ {| ip := "10.0.0.3"; timestamp := "2026-01-05T09:00:00"; user_agent := "curl/8.0" |};
    {| ip := "10.0.0.1"; timestamp := "2026-01-05T10:30:00.250000"; user_agent := "Mozilla/5.0" |};
    {| ip := "10.0.0.2"; timestamp := "2026-01-05T11:45:10"; user_agent := "Unknown" |} ].


Definition no_files : world := World None None [].

(** A store whose data file holds the JSON text of [j]. *)
Definition store_with (j : json) : world := World (Some (Document j)) None [].

(** A host two hours east of Greenwich, at noon UTC. *)
Definition noon_utc : clock :=
  Clock (Datetime 2026 1 5 14 0 0 0) (Datetime 2026 1 5 12 0 0 0).

Definition curl_request : request :=
  Request {["User-Agent" := "curl/8.0"]} "10.0.0.1".

Definition bare_request (peer : string) : request := Request ∅ peer.

Definition proxied_request : request :=
  Request {["X-Forwarded-For" := "1.2.3.4, 5.6.7.8"; "X-Real-IP" := "9.9.9.9"]} "10.0.0.1".

Definition real_ip_request : request :=
  Request {["X-Real-IP" := "9.9.9.9"]} "10.0.0.1".

(** [X-Forwarded-For] sent with an empty value. *)
Definition empty_forwarded_request : request :=
  Request {["X-Forwarded-For" := EmptyString; "X-Real-IP" := "9.9.9.9"]} "10.0.0.1".

(** ** Further vocabulary *)

(** Date and time of [d] to the second, with [sep] between the two. *)
Definition date_and_time (sep : string) (d : datetime) : string :=
  zero_padded 4 (year d) "-" +:+ zero_padded 2 (month d) "-" +:+ zero_padded 2 (day d) sep
  +:+ zero_padded 2 (hour d) ":" +:+ zero_padded 2 (minute d) ":"
  +:+ zero_padded 2 (second d) EmptyString.

Definition has_comma (s : string) : bool :=
  existsb (Ascii.eqb comma) (list_ascii_of_string s).

Definition starts_with_space (s : string) : bool :=
  match s with
  | EmptyString => false
  | String c _ => is_space c
  end.

Fixpoint ends_with_space (s : string) : bool :=
  match s with
  | EmptyString => false
  | String c EmptyString => is_space c
  | String _ s' => ends_with_space s'
  end.

(** The address [addr] is the [ip] of one of the clicks. *)
Definition recorded (addr : string) (clicks : list json) : bool :=
  existsb (λ click, match py_getitem click "ip" with
                    | Ok x => py_eq_str addr x
                    | Raise _ => false
                    end) clicks.

(** The CSV file holds the header and the rows of the stored log. *)
Definition csv_mirrors_log (w : world) : Prop :=
  ∃ rows, comprehension csv_row_of (stored_log w) = Ok rows ∧
          csv_file w = Some (csv_header :: rows).

(** A top-level member of the stored document. *)
Definition store_member (w : world) (k : string) : option json :=
  match loaded (data_file w) with
  | Ok (JObj m) => dict_lookup k m
  | _ => None
  end.

(** The calls that are the first from their address, in the order they
    came; [seen] holds the addresses met so far. *)
Fixpoint first_calls_from (seen : list string) (calls : list call) : list call :=
  match calls with
  | [] => []
  | c :: cs =>
      if bool_decide (call_ip c ∈ seen) then first_calls_from seen cs
      else c :: first_calls_from (call_ip c :: seen) cs
  end.

Definition first_calls (calls : list call) : list call := first_calls_from [] calls.

(** A store whose log has a record without a time stamp between two
    complete ones. *)
Definition patchy_log : json :=
  JObj [("clicks", JArr [JObj [("ip", JStr "10.0.0.1"); ("timestamp", JStr "2026-01-05T14:00:00")];
                         JObj [("ip", JStr "10.0.0.2")];
                         JObj [("ip", JStr "10.0.0.3"); ("timestamp", JStr "2026-01-05T15:00:00")]]);
        ("owner", JStr "ops")].

(** * Properties *)

(** ** Reading the store *)

Lemma load_data_eq (w : world) : load_data w = (loaded (data_file w), w).
Proof.
  destruct w as [[[| | |j]|] c o]; reflexivity.
Qed.

(** Running [load_data] first and then a computation that depends only on
    the value read. *)
Lemma bind_load_data {A : Type} (k : json → M A) (w : world) :
  (load_data ≫= k) w =
  match loaded (data_file w) with
  | Ok j => k j w
  | Raise e => (Raise e, w)
  end.
Proof. unfold mbind, M_bind. rewrite load_data_eq. reflexivity. Qed.

Lemma bind_lift {A B : Type} (r : result A) (k : A → M B) (w : world) :
  (lift r ≫= k) w =
  match r with
  | Ok a => k a w
  | Raise e => (Raise e, w)
  end.
Proof. unfold mbind, M_bind, lift. destruct r; reflexivity. Qed.

(** ** The reporting views *)

(** Both statistics views load, subscript and measure before they build
    their answer; the proofs about them follow these three steps. *)
Ltac stats_view_cases w :=
  rewrite bind_load_data;
  destruct (loaded (data_file w)) as [?data|?e]; [|reflexivity];
  rewrite bind_lift;
  destruct (py_getitem _ "clicks") as [?c|?e]; [|reflexivity];
  rewrite bind_lift;
  destruct (py_len _); reflexivity.

(** The statistics page goes two steps further: it iterates and renders. *)
Ltac stats_page_cases w :=
  rewrite bind_load_data;
  destruct (loaded (data_file w)) as [?data|?e]; [|reflexivity];
  rewrite bind_lift;
  destruct (py_getitem _ "clicks") as [?c|?e]; [|reflexivity];
  rewrite bind_lift;
  destruct (py_len _); [|reflexivity];
  rewrite bind_lift, bind_lift;
  destruct (py_iter _) as [?elems|?e]; [|reflexivity];
  rewrite bind_lift;
  destruct (render_visitors _); reflexivity.

Lemma show_stats_world (w : world) : (show_stats w).2 = w.
Proof.
  unfold show_stats. stats_page_cases w.
Qed.

Lemma api_stats_world (w : world) : (api_stats w).2 = w.
Proof.
  unfold api_stats. stats_view_cases w.
Qed.

(** What the two statistics views compute from a loaded value. *)
Lemma api_stats_eq (w : world) :
  (api_stats w).1 =
  match loaded (data_file w) with
  | Raise e => Raise e
  | Ok data =>
      match py_getitem data "clicks" with
      | Raise e => Raise e
      | Ok c =>
          match py_len c with
          | Raise e => Raise e
          | Ok n => Ok (Jsonify (stats_payload c n))
          end
      end
  end.
Proof.
  unfold api_stats. stats_view_cases w.
Qed.

Lemma show_stats_eq (w : world) :
  (show_stats w).1 =
  match loaded (data_file w) with
  | Raise e => Raise e
  | Ok data =>
      match py_getitem data "clicks" with
      | Raise e => Raise e
      | Ok c =>
          match py_len c with
          | Raise e => Raise e
          | Ok n =>
              match py_iter c with
              | Raise e => Raise e
              | Ok elems =>
                  match render_visitors elems with
                  | Raise e => Raise e
                  | Ok body => Ok (RenderTemplate stats_template (stats_context c n) body)
                  end
              end
          end
      end
  end.
Proof.
  unfold show_stats. stats_page_cases w.
Qed.

(** ** List comprehensions *)

Lemma comprehension_Forall2 {A B : Type} (f : A → result B) (l : list A) (ys : list B) :
  comprehension f l = Ok ys ↔ Forall2 (λ x y, f x = Ok y) l ys.
Proof.
  revert ys. induction l as [|x l IH]; intros ys; simpl.
  - split.
    + intros [= <-]. constructor.
    + intros H. inversion H. reflexivity.
  - split.
    + destruct (f x) as [y|e] eqn:Hx; [|discriminate].
      destruct (comprehension f l) as [ys'|e]; [|discriminate].
      intros [= <-]. constructor; [assumption|]. apply IH. reflexivity.
    + intros H. inversion H as [|? y ? ys' Hx Hl]; subst.
      rewrite Hx. apply IH in Hl. rewrite Hl. reflexivity.
Qed.

Lemma comprehension_total {A B : Type} (f : A → result B) (g : A → B) (l : list A) :
  Forall (λ x, f x = Ok (g x)) l → comprehension f l = Ok (map g l).
Proof.
  induction 1 as [|x l Hx _ IH]; simpl; [reflexivity|].
  rewrite Hx, IH. reflexivity.
Qed.

(** ** Writing the store *)

Section WriteRows.

Variable body : json → M unit.
Hypothesis body_eq : ∀ click w,
  body click w =
  match csv_row_of click with
  | Ok row => writerow row w
  | Raise e => (Raise e, w)
  end.

Lemma for_each_frame (l : list json) (w : world) :
  data_file (for_each l body w).2 = data_file w ∧
  stdout (for_each l body w).2 = stdout w.
Proof.
  revert w. induction l as [|x l IH]; intros w; simpl; [done|].
  unfold mbind, M_bind. rewrite body_eq.
  destruct (csv_row_of x) as [row|e]; simpl; [|done].
  destruct (IH (World (data_file w) (Some (default [] (csv_file w) ++ [row])) (stdout w)))
    as [IH1 IH2].
  done.
Qed.

Lemma for_each_ok (l : list json) (rs : list csv_row) (w : world) :
  comprehension csv_row_of l = Ok rs →
  for_each l body w =
  (Ok tt, match l with
          | [] => w
          | _ => World (data_file w) (Some (default [] (csv_file w) ++ rs)) (stdout w)
          end).
Proof.
  revert rs w. induction l as [|x l IH]; intros rs w; simpl.
  - intros _. reflexivity.
  - destruct (csv_row_of x) as [row|e] eqn:Hx; [|discriminate].
    destruct (comprehension csv_row_of l) as [rs'|e] eqn:Hl; [|discriminate].
    intros [= <-]. unfold mbind, M_bind. rewrite body_eq, Hx. simpl.
    rewrite (IH rs' _ eq_refl). destruct l as [|x' l'].
    + simpl in Hl. injection Hl as <-. reflexivity.
    + simpl. rewrite <- (assoc_L (++)). reflexivity.
Qed.

Lemma for_each_ok_inv (l : list json) (w : world) :
  (for_each l body w).1 = Ok tt → ∃ rs, comprehension csv_row_of l = Ok rs.
Proof.
  revert w. induction l as [|x l IH]; intros w; simpl; [eauto|].
  unfold mbind, M_bind. rewrite body_eq.
  destruct (csv_row_of x) as [row|e]; simpl; [|discriminate].
  intros H. apply IH in H as [rs ->]. eauto.
Qed.

End WriteRows.

Lemma save_data_body (click : json) (w : world) :
  (ip ← lift (py_getitem click "ip");
   ts ← lift (py_getitem click "timestamp");
   ua ← lift (py_get click "user_agent" (JStr "N/A"));
   writerow [ip; ts; ua]) w =
  match csv_row_of click with
  | Ok row => writerow row w
  | Raise e => (Raise e, w)
  end.
Proof.
  unfold csv_row_of. rewrite bind_lift.
  destruct (py_getitem click "ip"); [|reflexivity]. rewrite bind_lift.
  destruct (py_getitem click "timestamp"); [|reflexivity]. rewrite bind_lift.
  destruct (py_get click "user_agent" (JStr "N/A")); reflexivity.
Qed.

(** [save_data] up to the point where the header row has been written, or
    to the [open] that fails. *)
Lemma save_data_eq (data : json) (w : world) :
  save_data data w =
  if data_writable w then
    (clicks ← lift (py_getitem data "clicks");
     rows ← lift (py_iter clicks);
     for_each rows (λ click,
       ip ← lift (py_getitem click "ip");
       ts ← lift (py_getitem click "timestamp");
       ua ← lift (py_get click "user_agent" (JStr "N/A"));
       writerow [ip; ts; ua]))
      (World (Some (Document data)) (Some [csv_header]) (stdout w))
  else (Raise IOError, w).
Proof. destruct w as [[[| | |j]|] c o]; reflexivity. Qed.

(** On a data file that cannot be opened [save_data] writes nothing. *)
Lemma save_data_unwritable (data : json) (w : world) :
  data_writable w = false → save_data data w = (Raise IOError, w).
Proof. intros H. rewrite save_data_eq, H. reflexivity. Qed.

(** Whatever happens while the CSV file is rewritten, the JSON file already
    holds the new document and the console is untouched. *)
Lemma save_data_frame (data : json) (w : world) :
  data_writable w = true →
  data_file (save_data data w).2 = Some (Document data) ∧
  stdout (save_data data w).2 = stdout w.
Proof.
  intros Hw. rewrite save_data_eq, Hw, bind_lift.
  destruct (py_getitem data "clicks") as [c|e]; [|done].
  rewrite bind_lift. destruct (py_iter c) as [cl|e]; [|done].
  destruct (for_each_frame _ save_data_body cl
              (World (Some (Document data)) (Some [csv_header]) (stdout w))) as [H1 H2].
  done.
Qed.

Lemma save_data_ok (data c : json) (cl : list json) (rs : list csv_row) (w : world) :
  data_writable w = true →
  py_getitem data "clicks" = Ok c →
  py_iter c = Ok cl →
  comprehension csv_row_of cl = Ok rs →
  save_data data w =
  (Ok tt, World (Some (Document data)) (Some (csv_header :: rs)) (stdout w)).
Proof.
  intros Hw Hc Hcl Hrs.
  rewrite save_data_eq, Hw, bind_lift, Hc, bind_lift, Hcl.
  rewrite (for_each_ok _ save_data_body cl rs _ Hrs).
  destruct cl; [|reflexivity].
  simpl in Hrs. injection Hrs as <-. reflexivity.
Qed.

Lemma save_data_ok_inv (data : json) (w : world) :
  (save_data data w).1 = Ok tt →
  data_writable w = true ∧
  ∃ c cl rs, py_getitem data "clicks" = Ok c ∧ py_iter c = Ok cl ∧
             comprehension csv_row_of cl = Ok rs.
Proof.
  rewrite save_data_eq. destruct (data_writable w); [|discriminate].
  rewrite bind_lift.
  destruct (py_getitem data "clicks") as [c|e] eqn:Hc; [|discriminate].
  rewrite bind_lift. destruct (py_iter c) as [cl|e] eqn:Hcl; [|discriminate].
  intros H. destruct (for_each_ok_inv _ save_data_body cl _ H) as [rs Hrs].
  split; [reflexivity|]. exists c, cl, rs. done.
Qed.

(** ** The track handler *)

(** [track_click] step by step, with the binds of the monad unfolded. *)
Lemma track_click_eq (req : request) (clk : clock) (w : world) :
  track_click req clk w =
  match loaded (data_file w) with
  | Raise e => (Raise e, w)
  | Ok data =>
      match py_getitem data "clicks" with
      | Raise e => (Raise e, w)
      | Ok clicks =>
          match py_iter clicks with
          | Raise e => (Raise e, w)
          | Ok elems =>
              match comprehension (λ click, py_getitem click "ip") elems with
              | Raise e => (Raise e, w)
              | Ok existing_ips =>
                  if py_in (get_client_ip req) existing_ips then
                    (Ok (Redirect TARGET_URL 302), say (returning_visitor_line req clk) w)
                  else
                    match py_append clicks (click_record req clk) with
                    | Raise e => (Raise e, w)
                    | Ok clicks' =>
                        match save_data (with_clicks data clicks') w with
                        | (Raise e, w') => (Raise e, w')
                        | (Ok _, w') =>
                            (Ok (Redirect TARGET_URL 302), say (new_visitor_line req clk) w')
                        end
                    end
              end
          end
      end
  end.
Proof.
  unfold track_click. rewrite bind_load_data.
  destruct (loaded (data_file w)) as [data|e]; [|reflexivity].
  rewrite bind_lift. destruct (py_getitem data "clicks") as [clicks|e]; [|reflexivity].
  rewrite bind_lift. destruct (py_iter clicks) as [elems|e]; [|reflexivity].
  rewrite bind_lift.
  destruct (comprehension (λ click, py_getitem click "ip") elems) as [ips|e]; [|reflexivity].
  unfold mbind at 1, M_bind at 1.
  destruct (py_in (get_client_ip req) ips); simpl.
  - reflexivity.
  - fold (click_record req clk). rewrite bind_lift.
    destruct (py_append clicks (click_record req clk)) as [clicks'|e]; [|reflexivity].
    unfold mbind at 1, M_bind at 1.
    destruct (save_data (with_clicks data clicks') w) as [[[]|e] w']; reflexivity.
Qed.

(** ** The IP resolver *)

Lemma py_split_hd (s : string) : hd EmptyString (py_split comma s) = first_element s.
Proof.
  induction s as [|c s IH]; simpl; [reflexivity|].
  destruct (Ascii.eqb c comma); [reflexivity|].
  destruct (py_split comma s) as [|p ps]; simpl in *; congruence.
Qed.

Lemma py_split_nonempty (sep : ascii) (s : string) : py_split sep s ≠ [].
Proof.
  destruct s as [|c s]; simpl; [discriminate|].
  destruct (Ascii.eqb c sep); [discriminate|].
  destruct (py_split sep s); discriminate.
Qed.

Lemma py_lstrip_list (s : string) :
  list_ascii_of_string (py_lstrip s) = drop_spaces (list_ascii_of_string s).
Proof.
  induction s as [|c s IH]; simpl; [reflexivity|].
  destruct (is_space c); [assumption|reflexivity].
Qed.

Lemma drop_spaces_snoc (l : list ascii) (c : ascii) :
  drop_spaces (l ++ [c]) =
  match drop_spaces l with
  | [] => if is_space c then [] else [c]
  | r => r ++ [c]
  end.
Proof.
  induction l as [|x l IH]; simpl; [reflexivity|].
  destruct (is_space x); [assumption|reflexivity].
Qed.

Lemma py_rstrip_list (l : list ascii) :
  py_rstrip (string_of_list_ascii l) = string_of_list_ascii (rev (drop_spaces (rev l))).
Proof.
  induction l as [|c l IH]; simpl; [reflexivity|].
  rewrite IH, drop_spaces_snoc.
  destruct (drop_spaces (rev l)) as [|x r]; simpl.
  - destruct (is_space c); reflexivity.
  - rewrite rev_app_distr. simpl.
    destruct (rev r ++ [x]) as [|y t] eqn:E; [|reflexivity].
    destruct (rev r); discriminate.
Qed.

Lemma py_strip_trim (s : string) : py_strip s = trim s.
Proof.
  unfold py_strip, trim.
  rewrite <- py_lstrip_list, <- py_rstrip_list, string_of_list_ascii_of_string.
  reflexivity.
Qed.

Lemma truthy_present_nonempty (h : gmap string string) (k : string) :
  truthy (h !! k) = bool_decide (is_Some (present_nonempty h k)).
Proof.
  unfold present_nonempty. destruct (h !! k) as [[|c s]|]; reflexivity.
Qed.

Lemma get_client_ip_resolve (req : request) :
  get_client_ip req = resolve_with present_nonempty req.
Proof.
  unfold get_client_ip, resolve_with, present_nonempty.
  rewrite py_split_hd, py_strip_trim.
  destruct (headers req !! "X-Forwarded-For") as [[|c s]|];
    destruct (headers req !! "X-Real-IP") as [[|c' s']|]; reflexivity.
Qed.

Lemma dict_lookup_store {V : Type} (k : string) (v : V) (m : list (string * V)) :
  dict_lookup k (dict_store k v m) = Some v.
Proof.
  induction m as [|[k' v'] m IH]; simpl.
  - rewrite String.eqb_refl. reflexivity.
  - destruct (String.eqb k k') eqn:E; simpl; rewrite E; [reflexivity|assumption].
Qed.

Lemma py_in_strings (s : string) (l : list string) :
  py_in s (JStr <$> l) = bool_decide (s ∈ l).
Proof.
  unfold py_in. induction l as [|x l IH]; [reflexivity|].
  rewrite fmap_cons. cbn [existsb py_eq_str].
  rewrite IH. destruct (String.eqb_spec s x) as [->|Hne].
  - symmetry. apply bool_decide_eq_true. left.
  - simpl. apply bool_decide_ext. rewrite elem_of_cons.
    split; [auto | intros [?|?]; [contradiction | assumption]].
Qed.

(** The files after [track_click]: either both are as before, or the JSON
    file holds the loaded object with the new record at the end of its list. *)
Lemma track_click_effect (req : request) (clk : clock) (w : world) :
  (data_file (track_click req clk w).2 = data_file w ∧
   csv_file (track_click req clk w).2 = csv_file w) ∨
  (∃ m l, loaded (data_file w) = Ok (JObj m) ∧
          dict_lookup "clicks" m = Some (JArr l) ∧
          data_file (track_click req clk w).2 =
            Some (Document (JObj (dict_store "clicks" (JArr (l ++ [click_record req clk])) m)))).
Proof.
  rewrite track_click_eq.
  destruct (loaded (data_file w)) as [data|e] eqn:Hload; [|left; done].
  destruct (py_getitem data "clicks") as [clicks|e] eqn:Hclicks; [|left; done].
  destruct (py_iter clicks) as [elems|e]; [|left; done].
  destruct (comprehension _ elems) as [ips|e]; [|left; done].
  destruct (py_in (get_client_ip req) ips); [left; done|].
  destruct clicks as [| | | | |l|]; try (left; done).
  destruct data as [| | | | | |m]; try discriminate.
  simpl in Hclicks. destruct (dict_lookup "clicks" m) as [v|] eqn:Hm; [|discriminate].
  injection Hclicks as ->. simpl py_append. cbv iota beta.
  destruct (data_writable w) eqn:Hw.
  - right. exists m, l. split; [reflexivity|]. split; [exact Hm|].
    pose proof (save_data_frame
                  (with_clicks (JObj m) (JArr (l ++ [click_record req clk]))) w Hw) as [Hd _].
    destruct (save_data _ w) as [[[]|e] w']; exact Hd.
  - left. rewrite save_data_unwritable by exact Hw. done.
Qed.

Lemma store_clicks_appended (w w' : world) (m : list (string * json)) (l l' : list json) :
  loaded (data_file w) = Ok (JObj m) →
  dict_lookup "clicks" m = Some (JArr l) →
  data_file w' = Some (Document (JObj (dict_store "clicks" (JArr l') m))) →
  store_clicks w = Some l ∧ store_clicks w' = Some l'.
Proof.
  intros Hload Hl Hd. unfold store_clicks. rewrite Hload, Hd. simpl.
  rewrite Hl, dict_lookup_store. done.
Qed.

Lemma store_clicks_unchanged (w w' : world) :
  data_file w' = data_file w → store_clicks w' = store_clicks w.
Proof. unfold store_clicks. intros ->. reflexivity. Qed.

(** ** Typed logs *)

Lemma record_ips (log : list ClickRecord) :
  comprehension (λ click, py_getitem click "ip") (record_json <$> log)
  = Ok (JStr <$> (ip <$> log)).
Proof.
  rewrite <- list_fmap_compose.
  rewrite (comprehension_total _ (λ v, match py_getitem v "ip" with Ok x => x | _ => v end)).
  - rewrite <- list_fmap_compose. reflexivity.
  - apply Forall_fmap, Forall_true. intros r. reflexivity.
Qed.

Lemma record_rows (log : list ClickRecord) :
  comprehension csv_row_of (record_json <$> log) = Ok (record_row <$> log).
Proof.
  rewrite (comprehension_total _ (λ v, match csv_row_of v with Ok x => x | _ => [] end)).
  - rewrite <- list_fmap_compose. reflexivity.
  - apply Forall_fmap, Forall_true. intros r. reflexivity.
Qed.

(** [track_click] on a store that holds a typed log. *)
Lemma track_click_typed (req : request) (clk : clock) (w : world) (log : list ClickRecord) :
  data_writable w = true →
  loaded (data_file w) = Ok (log_json log) →
  track_click req clk w =
  (Ok (Redirect TARGET_URL 302),
   if bool_decide (get_client_ip req ∈ ip <$> log) then
     say (returning_visitor_line req clk) w
   else
     let log' := log ++ [call_record (req, clk)] in
     say (new_visitor_line req clk)
       (World (Some (Document (log_json log'))) (Some (csv_header :: (record_row <$> log')))
              (stdout w))).
Proof.
  intros Hw Hload. rewrite track_click_eq, Hload.
  change (py_getitem (log_json log) "clicks") with (Ok (JArr (record_json <$> log))).
  cbv iota beta. simpl py_iter. cbv iota beta.
  rewrite record_ips. rewrite py_in_strings.
  destruct (bool_decide (get_client_ip req ∈ ip <$> log)); [reflexivity|].
  simpl py_append. cbv iota beta.
  change (click_record req clk) with (record_json (call_record (req, clk))).
  replace (with_clicks (log_json log) (JArr ((record_json <$> log) ++ [record_json (call_record (req, clk))])))
    with (log_json (log ++ [call_record (req, clk)]))
    by (unfold log_json; rewrite fmap_app; reflexivity).
  rewrite (save_data_ok _ (JArr (record_json <$> (log ++ [call_record (req, clk)])))
             (record_json <$> (log ++ [call_record (req, clk)]))
             (record_row <$> (log ++ [call_record (req, clk)])));
    [reflexivity|exact Hw|reflexivity|reflexivity|apply record_rows].
Qed.

(** * The claims *)

(** ** Resolver *)

(** Claim C2, as worded, fails: a forwarded-for header that is present with
    an empty value is passed over, and the resolver answers with the real-IP
    header instead of the (empty) first element of the forwarded-for one. *)
Lemma resolver_empty_header_counterexample :
  present (headers empty_forwarded_request) "X-Forwarded-For" = Some EmptyString ∧
  resolve_with present empty_forwarded_request = EmptyString ∧
  get_client_ip empty_forwarded_request = "9.9.9.9" ∧
  get_client_ip empty_forwarded_request ≠ resolve_with present empty_forwarded_request.
Proof. repeat split; try reflexivity. vm_compute. discriminate. Qed.

(** Claim C2, amended: the resolver returns the first comma-separated element
    of [X-Forwarded-For], trimmed, when that header is present with a value
    that is not empty; otherwise the value of [X-Real-IP] as it is, when that
    header is present with a value that is not empty; otherwise the peer
    address.  The three sample requests of the description resolve as it
    says. *)
Theorem resolver_precedence :
  (∀ req, get_client_ip req = resolve_with present_nonempty req) ∧
  get_client_ip proxied_request = "1.2.3.4" ∧
  get_client_ip real_ip_request = "9.9.9.9" ∧
  (∀ peer, get_client_ip (bare_request peer) = peer).
Proof.
  split; [exact get_client_ip_resolve|].
  split; [reflexivity|]. split; [reflexivity|]. intros peer. reflexivity.
Qed.

(** ** Store *)

(** [load_data] recovers from a data file that is missing, cannot be opened
    or is not JSON text. *)
Lemma load_data_recovers (w : world) :
  data_file w = None ∨ data_file w = Some Unreadable ∨ data_file w = Some Malformed →
  load_data w = (Ok empty_log, w).
Proof. rewrite load_data_eq. intros [->|[->| ->]]; reflexivity. Qed.

(** Claim C3 at the input where the code misses it.  A data file that is
    absent, or holds text that is not JSON, is read as the empty log.  A data
    file whose bytes are not text in the locale's encoding holds no valid JSON
    either, yet the [UnicodeDecodeError] of the read is not among the
    exceptions [load_data] catches, and the caller gets the exception instead
    of an empty log. *)
Theorem load_data_undecodable (c : option (list csv_row)) (o : list string) :
  load_data (World None c o) = (Ok (JObj [("clicks", JArr [])]), World None c o) ∧
  load_data (World (Some Malformed) c o)
  = (Ok (JObj [("clicks", JArr [])]), World (Some Malformed) c o) ∧
  load_data (World (Some Undecodable) c o)
  = (Raise UnicodeDecodeError, World (Some Undecodable) c o).
Proof. rewrite !load_data_eq. repeat split. Qed.

(** Claim C4: a save that succeeds leaves the JSON file holding the saved
    value and the CSV file holding the header row [IP Address], [Timestamp],
    [User Agent] followed by one row per record, in the order of the records,
    row [i] made of the [ip], [timestamp] and [user_agent] of record [i]; so
    the CSV file has as many data rows as the log has records.  Saving a log
    of click records to a file that can be opened always succeeds. *)
Theorem save_data_csv_mirrors_json :
  (∀ (log : list ClickRecord) (w : world),
     data_writable w = true →
     save_data (log_json log) w =
     (Ok tt, World (Some (Document (log_json log)))
                   (Some ([JStr "IP Address"; JStr "Timestamp"; JStr "User Agent"]
                          :: (record_row <$> log)))
                   (stdout w))) ∧
  (∀ (data : json) (w w' : world),
     save_data data w = (Ok tt, w') →
     ∃ (c : json) (records : list json) (rows : list csv_row),
       py_getitem data "clicks" = Ok c ∧ py_iter c = Ok records ∧
       data_file w' = Some (Document data) ∧
       csv_file w' = Some ([JStr "IP Address"; JStr "Timestamp"; JStr "User Agent"] :: rows) ∧
       length rows = length records ∧
       ∀ (i : nat) (click : json), records !! i = Some click →
         ∃ ip ts ua, py_getitem click "ip" = Ok ip ∧
                     py_getitem click "timestamp" = Ok ts ∧
                     py_get click "user_agent" (JStr "N/A") = Ok ua ∧
                     rows !! i = Some [ip; ts; ua]).
Proof.
  split.
  - intros log w Hw.
    apply (save_data_ok _ (JArr (record_json <$> log)) (record_json <$> log));
      [exact Hw|reflexivity|reflexivity|apply record_rows].
  - intros data w w' Hsave.
    destruct (save_data_ok_inv data w) as (Hw & c & records & rows & Hc & Hrec & Hrows).
    { rewrite Hsave. reflexivity. }
    rewrite (save_data_ok _ _ _ _ w Hw Hc Hrec Hrows) in Hsave. injection Hsave as <-.
    exists c, records, rows. repeat (split; [done|]).
    apply comprehension_Forall2 in Hrows. split.
    + symmetry. eapply Forall2_length. exact Hrows.
    + intros i click Hi.
      destruct (Forall2_lookup_l _ _ _ _ _ Hrows Hi) as (row & Hrow & Hclick).
      unfold csv_row_of in Hclick.
      destruct (py_getitem click "ip") as [ip|]; [|discriminate].
      destruct (py_getitem click "timestamp") as [ts|]; [|discriminate].
      destruct (py_get click "user_agent" (JStr "N/A")) as [ua|]; [|discriminate].
      injection Hclick as <-. exists ip, ts, ua. done.
Qed.

Lemma save_data_csv_mirrors_json_witness :
  data_writable (World None (Some [[JStr "stale"]]) []) = true ∧
  csv_file (save_data (log_json three_visits) (World None (Some [[JStr "stale"]]) [])).2
  = Some [[JStr "IP Address"; JStr "Timestamp"; JStr "User Agent"];
          [JStr "10.0.0.3"; JStr "2026-01-05T09:00:00"; JStr "curl/8.0"];
          [JStr "10.0.0.1"; JStr "2026-01-05T10:30:00.250000"; JStr "Mozilla/5.0"];
          [JStr "10.0.0.2"; JStr "2026-01-05T11:45:10"; JStr "Unknown"]] ∧
  ∃ rows,
    csv_file (save_data (log_json three_visits) no_files).2
    = Some ([JStr "IP Address"; JStr "Timestamp"; JStr "User Agent"] :: rows) ∧
    length rows = 3%nat ∧
    rows !! 1%nat = Some [JStr "10.0.0.1"; JStr "2026-01-05T10:30:00.250000"; JStr "Mozilla/5.0"].
Proof.
  split; [reflexivity|]. split.
  - rewrite (proj1 save_data_csv_mirrors_json three_visits
               (World None (Some [[JStr "stale"]]) []) eq_refl).
    reflexivity.
  - destruct (proj2 save_data_csv_mirrors_json (log_json three_visits) no_files
                (save_data (log_json three_visits) no_files).2 eq_refl)
      as (c & records & rows & Hc & Hrec & _ & Hcsv & Hlen & Hrows).
    vm_compute in Hc. injection Hc as <-. vm_compute in Hrec. injection Hrec as <-.
    exists rows. split; [exact Hcsv|]. split; [exact Hlen|].
    destruct (Hrows 1%nat _ eq_refl) as (ip & ts & ua & Hip & Hts & Hua & Hrow).
    vm_compute in Hip, Hts, Hua. injection Hip as <-. injection Hts as <-.
    injection Hua as <-. exact Hrow.
Defined.

(** ** Reporting views *)

(** Claim C9: the HTML statistics view, the JSON statistics view and the home
    view leave the world as they found it, the JSON file and the CSV file in
    particular, whether they return a page or end in an exception. *)
Theorem views_do_not_modify_store (w : world) :
  (show_stats w).2 = w ∧ (api_stats w).2 = w ∧ (home w).2 = w.
Proof.
  split; [apply show_stats_world|]. split; [apply api_stats_world|]. reflexivity.
Qed.

(** Claim C7, as worded, fails: it speaks of every state of the store, and in
    a state whose data file holds a JSON array the view returns no payload at
    all. *)
Lemma api_stats_counterexample :
  api_stats (store_with (JArr [])) = (Raise TypeError, store_with (JArr [])) ∧
  (api_stats (store_with (JArr []))).1 ≠
    Ok (Jsonify (stats_payload (JArr (stored_log (store_with (JArr []))))
                   (Z.of_nat (length (stored_log (store_with (JArr []))))))).
Proof. split; [reflexivity|]. vm_compute. discriminate. Qed.

(** Claim C7, amended: in every state of the store that holds a click list
    (the data file is absent, unreadable, not JSON text, or an object whose
    ["clicks"] is a list), the JSON statistics view returns a payload whose
    [total_unique_visitors] is the number of records in the store, whose
    [clicks] is the stored list and whose [target_url] is the configured
    target. *)
Theorem api_stats_matches_store (w : world) (l : list json) :
  store_clicks w = Some l →
  stored_log w = l ∧
  api_stats w =
  (Ok (Jsonify (JObj [("total_unique_visitors", JInt (Z.of_nat (length l)));
                      ("clicks", JArr l);
                      ("target_url", JStr TARGET_URL)])), w).
Proof.
  intros Hl. split; [unfold stored_log; rewrite Hl; reflexivity|].
  rewrite (surjective_pairing (api_stats w)), api_stats_world, api_stats_eq.
  unfold store_clicks in Hl.
  destruct (loaded (data_file w)) as [data|e]; [|discriminate].
  destruct data as [| | | | | |m]; try discriminate. simpl in *.
  destruct (dict_lookup "clicks" m) as [[| | | | |l'|]|]; try discriminate.
  injection Hl as ->. reflexivity.
Qed.

Lemma api_stats_matches_store_witness :
  store_clicks (store_with (log_json three_visits)) = Some (record_json <$> three_visits) ∧
  api_stats (store_with (log_json three_visits)) =
  (Ok (Jsonify
         (JObj [("total_unique_visitors", JInt 3);
                ("clicks",
                 JArr [JObj [("ip", JStr "10.0.0.3"); ("timestamp", JStr "2026-01-05T09:00:00");
                             ("user_agent", JStr "curl/8.0")];
                       JObj [("ip", JStr "10.0.0.1");
                             ("timestamp", JStr "2026-01-05T10:30:00.250000");
                             ("user_agent", JStr "Mozilla/5.0")];
                       JObj [("ip", JStr "10.0.0.2"); ("timestamp", JStr "2026-01-05T11:45:10");
                             ("user_agent", JStr "Unknown")]]);
                ("target_url",
                 JStr "https://developer.huaweicloud.com/intl/en-us/activity/c64bd713260a42e7872e4138a2aef2db")])),
   store_with (log_json three_visits)).
Proof.
  split; [reflexivity|].
  exact (proj2 (api_stats_matches_store (store_with (log_json three_visits))
                  (record_json <$> three_visits) eq_refl)).
Defined.

(** ** Missing schema validation *)

(** Claim C10, as worded, fails for the statistics views: an object whose
    ["clicks"] is itself an (empty) object is not an object with a click
    list, and yet the JSON view answers with a payload and the HTML view
    renders the page that says there are no visitors. *)
Lemma schema_fault_counterexample :
  clicks_of (JObj [("clicks", JObj [])]) = None ∧
  api_stats (store_with (JObj [("clicks", JObj [])])) =
  (Ok (Jsonify (JObj [("total_unique_visitors", JInt 0); ("clicks", JObj []);
                      ("target_url", JStr TARGET_URL)])),
   store_with (JObj [("clicks", JObj [])])) ∧
  show_stats (store_with (JObj [("clicks", JObj [])])) =
  (Ok (RenderTemplate stats_template
         [("total_unique", JInt 0); ("clicks", JObj []);
          ("target_url", JStr TARGET_URL); ("data_file", JStr DATA_FILE);
          ("csv_file", JStr CSV_FILE)]
         NoVisitors),
   store_with (JObj [("clicks", JObj [])])).
Proof. repeat split. Qed.

(** Claim C10, amended: [load_data] returns whatever valid JSON the file holds
    without looking at its shape.  When that value is not an object, or is an
    object without a ["clicks"] key, the track handler and both statistics
    views end in an unhandled exception ([TypeError], [KeyError]) where they
    subscript it, and the store is left as it was.  When ["clicks"] is there
    but is not a list, the store is left as it was too, and: for [null], a
    boolean or a number all three end in [TypeError]; for a string or an
    object the JSON view answers with its length, the track handler ends in
    [TypeError] on the first element (in [AttributeError] at [append] if
    there is none), and the HTML view ends in [UndefinedError] inside the
    template on the first element (it renders the page without visitors if
    there is none). *)
Theorem schema_invalid_store_faults (j : json) (req : request) (clk : clock)
    (c : option (list csv_row)) (o : list string) :
  let w := World (Some (Document j)) c o in
  load_data w = (Ok j, w) ∧
  ((∀ m, j ≠ JObj m) →
     track_click req clk w = (Raise TypeError, w) ∧
     show_stats w = (Raise TypeError, w) ∧
     api_stats w = (Raise TypeError, w)) ∧
  (∀ m, j = JObj m → dict_lookup "clicks" m = None →
     track_click req clk w = (Raise (KeyError "clicks"), w) ∧
     show_stats w = (Raise (KeyError "clicks"), w) ∧
     api_stats w = (Raise (KeyError "clicks"), w)) ∧
  (∀ m v, j = JObj m → dict_lookup "clicks" m = Some v →
     not_a_list_outcome req clk w v).
Proof.
  intros w. split; [reflexivity|]. split; [|split].
  - intros Hno.
    rewrite (surjective_pairing (show_stats w)), (surjective_pairing (api_stats w)).
    rewrite show_stats_world, api_stats_world, show_stats_eq, api_stats_eq, track_click_eq.
    destruct j as [| | | | | |m]; try done. destruct (Hno m eq_refl).
  - intros m -> Hm.
    rewrite (surjective_pairing (show_stats w)), (surjective_pairing (api_stats w)).
    rewrite show_stats_world, api_stats_world, show_stats_eq, api_stats_eq, track_click_eq.
    simpl. rewrite Hm. done.
  - intros m v -> Hv. unfold not_a_list_outcome.
    rewrite (surjective_pairing (show_stats w)), (surjective_pairing (api_stats w)).
    rewrite show_stats_world, api_stats_world, show_stats_eq, api_stats_eq, track_click_eq.
    simpl. rewrite Hv.
    destruct v as [| | | |s|l|items]; try done.
    + destruct s as [|a s]; done.
    + destruct items as [|[k x] items]; done.
Qed.

Lemma schema_invalid_store_faults_witness :
  (track_click curl_request noon_utc (store_with (JArr []))
     = (Raise TypeError, store_with (JArr [])) ∧
   show_stats (store_with (JArr [])) = (Raise TypeError, store_with (JArr [])) ∧
   api_stats (store_with (JArr [])) = (Raise TypeError, store_with (JArr []))) ∧
  (track_click curl_request noon_utc (store_with (JObj [("visits", JArr [])]))
     = (Raise (KeyError "clicks"), store_with (JObj [("visits", JArr [])])) ∧
   show_stats (store_with (JObj [("visits", JArr [])]))
     = (Raise (KeyError "clicks"), store_with (JObj [("visits", JArr [])])) ∧
   api_stats (store_with (JObj [("visits", JArr [])]))
     = (Raise (KeyError "clicks"), store_with (JObj [("visits", JArr [])]))) ∧
  (track_click curl_request noon_utc (store_with (JObj [("clicks", JNull)]))
     = (Raise TypeError, store_with (JObj [("clicks", JNull)])) ∧
   show_stats (store_with (JObj [("clicks", JNull)]))
     = (Raise TypeError, store_with (JObj [("clicks", JNull)])) ∧
   api_stats (store_with (JObj [("clicks", JNull)]))
     = (Raise TypeError, store_with (JObj [("clicks", JNull)]))) ∧
  (api_stats (store_with (JObj [("clicks", JStr "abc")]))
     = (Ok (Jsonify (JObj [("total_unique_visitors", JInt 3); ("clicks", JStr "abc");
                           ("target_url", JStr TARGET_URL)])),
        store_with (JObj [("clicks", JStr "abc")])) ∧
   track_click curl_request noon_utc (store_with (JObj [("clicks", JStr "abc")]))
     = (Raise TypeError, store_with (JObj [("clicks", JStr "abc")])) ∧
   show_stats (store_with (JObj [("clicks", JStr "abc")]))
     = (Raise UndefinedError, store_with (JObj [("clicks", JStr "abc")]))).
Proof.
  split; [|split; [|split]].
  - apply (schema_invalid_store_faults (JArr []) curl_request noon_utc None []).
    intros m. discriminate.
  - apply (schema_invalid_store_faults (JObj [("visits", JArr [])]) curl_request noon_utc None []
             ) with (m := [("visits", JArr [])]); reflexivity.
  - exact (proj2 (proj2 (proj2 (schema_invalid_store_faults (JObj [("clicks", JNull)])
                                  curl_request noon_utc None [])))
             [("clicks", JNull)] JNull eq_refl eq_refl).
  - exact (proj2 (proj2 (proj2 (schema_invalid_store_faults (JObj [("clicks", JStr "abc")])
                                  curl_request noon_utc None [])))
             [("clicks", JStr "abc")] (JStr "abc") eq_refl eq_refl).
Defined.

(** ** Track handler *)

Lemma comprehension_defined {A B : Type} (f : A → result B) (l : list A) :
  Forall (λ x, ∃ y, f x = Ok y) l → ∃ ys, comprehension f l = Ok ys.
Proof.
  induction 1 as [|x l [y Hx] _ [ys IH]]; simpl; [eauto|].
  rewrite Hx, IH. eauto.
Qed.

Lemma is_record_ip (v : json) :
  is_record v = true → ∃ x, py_getitem v "ip" = Ok x.
Proof.
  destruct v as [| | | | | |m]; try discriminate. simpl.
  intros [[x Hx]%bool_decide_eq_true _]%andb_true_iff. rewrite Hx. eauto.
Qed.

Lemma is_record_row (v : json) :
  is_record v = true → ∃ row, csv_row_of v = Ok row.
Proof.
  destruct v as [| | | | | |m]; try discriminate. unfold csv_row_of. simpl.
  intros [[x Hx]%bool_decide_eq_true [y Hy]%bool_decide_eq_true]%andb_true_iff.
  rewrite Hx, Hy. eauto.
Qed.

Lemma store_clicks_loaded (w : world) (l : list json) :
  store_clicks w = Some l →
  ∃ m, loaded (data_file w) = Ok (JObj m) ∧ dict_lookup "clicks" m = Some (JArr l).
Proof.
  unfold store_clicks.
  destruct (loaded (data_file w)) as [[| | | | | |m]|e]; try discriminate. simpl.
  destruct (dict_lookup "clicks" m) as [[| | | | |l'|]|] eqn:Hm; try discriminate.
  intros [= ->]. exists m. done.
Qed.

Lemma forallb_Forall_true {A : Type} (f : A → bool) (l : list A) :
  forallb f l = true ↔ Forall (λ x, f x = true) l.
Proof.
  induction l as [|x l IH]; simpl.
  - split; [constructor|reflexivity].
  - rewrite andb_true_iff, Forall_cons, IH. reflexivity.
Qed.

(** On a store that holds a click log the handler runs to its end, and the
    store holds a click log afterwards. *)
Lemma track_click_store_ok (req : request) (clk : clock) (w : world) :
  store_ok w = true →
  (track_click req clk w).1 = Ok (Redirect TARGET_URL 302) ∧
  store_ok (track_click req clk w).2 = true.
Proof.
  unfold store_ok at 1. intros [Hw Hrec]%andb_true_iff.
  destruct (store_clicks w) as [l|] eqn:Hl; [|discriminate].
  pose proof Hrec as Hall. apply forallb_Forall_true in Hall.
  destruct (store_clicks_loaded w l Hl) as (m & Hload & Hm).
  assert (Hsame : ∀ line, store_ok (say line w) = true).
  { intros line. unfold store_ok.
    rewrite (store_clicks_unchanged w (say line w) eq_refl), Hl.
    change (data_writable (say line w)) with (data_writable w).
    rewrite Hw. exact Hrec. }
  rewrite track_click_eq, Hload. simpl py_getitem. rewrite Hm. simpl py_iter. cbv iota beta.
  destruct (comprehension_defined (λ click, py_getitem click "ip") l) as [ips ->].
  { eapply Forall_impl; [exact Hall|]. intros v Hv. apply is_record_ip, Hv. }
  destruct (py_in (get_client_ip req) ips); [split; [reflexivity|apply Hsame]|].
  simpl py_append. cbv iota beta.
  assert (Hall' : Forall (λ v, is_record v = true) (l ++ [click_record req clk])).
  { apply Forall_app. split; [exact Hall|repeat constructor]. }
  destruct (comprehension_defined csv_row_of (l ++ [click_record req clk])) as [rows Hrows].
  { eapply Forall_impl; [exact Hall'|]. intros v Hv. apply is_record_row, Hv. }
  rewrite (save_data_ok _ (JArr (l ++ [click_record req clk]))
             (l ++ [click_record req clk]) rows);
    [|exact Hw|simpl; rewrite dict_lookup_store; reflexivity|reflexivity|exact Hrows].
  split; [reflexivity|].
  unfold store_ok, store_clicks. simpl. rewrite dict_lookup_store.
  apply forallb_Forall_true. exact Hall'.
Qed.

(** Claim C6, as worded, fails: it speaks of every invocation, and an
    invocation that finds a JSON array in the data file ends in a [TypeError]
    before it reaches the redirect. *)
Lemma track_redirect_counterexample :
  track_click curl_request noon_utc (store_with (JArr []))
  = (Raise TypeError, store_with (JArr [])) ∧
  (track_click curl_request noon_utc (store_with (JArr []))).1
  ≠ Ok (Redirect TARGET_URL 302).
Proof. split; [reflexivity|]. vm_compute. discriminate. Qed.

(** Claim C6, amended: every invocation of the track handler on a store that
    holds a click log and can be written (the data file is absent, or holds
    text that is not JSON, or holds an object whose ["clicks"] is a list of
    records) responds with a 302 redirect to the configured target, whether
    it recorded the visit or not and whatever the log holds for the resolved
    IP, and leaves a store of that kind, so that repeated calls get the same
    answer; on any store, a response, when there is one, is that redirect.
    On a path that cannot be opened there is no response: the failed read is
    taken for an empty log, and the write then ends in [IOError]. *)
Theorem track_click_redirects (req : request) (clk : clock) (w : world) :
  (∀ r, (track_click req clk w).1 = Ok r → r = Redirect TARGET_URL 302) ∧
  (store_ok w = true →
   (track_click req clk w).1 = Ok (Redirect TARGET_URL 302) ∧
   store_ok (track_click req clk w).2 = true) ∧
  (data_file w = Some Unreadable → track_click req clk w = (Raise IOError, w)).
Proof.
  split; [|split; [apply track_click_store_ok|]].
  - rewrite track_click_eq. intros r.
    destruct (loaded (data_file w)) as [data|e]; [|discriminate].
    destruct (py_getitem data "clicks") as [clicks|e]; [|discriminate].
    destruct (py_iter clicks) as [elems|e]; [|discriminate].
    destruct (comprehension _ elems) as [ips|e]; [|discriminate].
    destruct (py_in (get_client_ip req) ips); [intros [= <-]; reflexivity|].
    destruct (py_append clicks (click_record req clk)) as [clicks'|e]; [|discriminate].
    destruct (save_data _ w) as [[[]|e] w']; [intros [= <-]; reflexivity|discriminate].
  - intros Hfile. rewrite track_click_eq, Hfile. simpl.
    rewrite save_data_unwritable; [reflexivity|].
    unfold data_writable. rewrite Hfile. reflexivity.
Qed.

Lemma track_click_redirects_witness :
  store_ok (store_with (log_json three_visits)) = true ∧
  (track_click curl_request noon_utc (store_with (log_json three_visits))).1
    = Ok (Redirect "https://developer.huaweicloud.com/intl/en-us/activity/c64bd713260a42e7872e4138a2aef2db" 302) ∧
  (track_click (bare_request "10.0.0.9") noon_utc (store_with (log_json three_visits))).1
    = Ok (Redirect TARGET_URL 302) ∧
  (track_click (bare_request "10.0.0.9") noon_utc
     (track_click (bare_request "10.0.0.9") noon_utc (store_with (log_json three_visits))).2).1
    = Ok (Redirect TARGET_URL 302) ∧
  track_click curl_request noon_utc (World (Some Unreadable) None [])
    = (Raise IOError, World (Some Unreadable) None []).
Proof.
  split; [reflexivity|].
  split.
  { exact (proj1 (proj1 (proj2 (track_click_redirects curl_request noon_utc
                                  (store_with (log_json three_visits)))) eq_refl)). }
  destruct (proj1 (proj2 (track_click_redirects (bare_request "10.0.0.9") noon_utc
                            (store_with (log_json three_visits)))) eq_refl) as [H1 H2].
  split; [exact H1|]. split.
  - exact (proj1 (proj1 (proj2 (track_click_redirects (bare_request "10.0.0.9") noon_utc _))
                    H2)).
  - exact (proj2 (proj2 (track_click_redirects curl_request noon_utc
                           (World (Some Unreadable) None []))) eq_refl).
Defined.

(** The log after [track_click]: as before, with both files untouched, or
    longer by the new record. *)
Lemma track_click_log (req : request) (clk : clock) (w : world) :
  (data_file (track_click req clk w).2 = data_file w ∧
   csv_file (track_click req clk w).2 = csv_file w ∧
   stored_log (track_click req clk w).2 = stored_log w) ∨
  stored_log (track_click req clk w).2 = stored_log w ++ [click_record req clk].
Proof.
  destruct (track_click_effect req clk w) as [[Hd Hc]|(m & l & Hload & Hm & Hd)].
  - left. unfold stored_log. rewrite (store_clicks_unchanged _ _ Hd). done.
  - right. unfold stored_log.
    destruct (store_clicks_appended w _ m l _ Hload Hm Hd) as [-> ->]. reflexivity.
Qed.

(** Claim C8: an invocation of the track handler leaves the click log of the
    store as it was (then neither file is touched) or longer by exactly one
    record put at its end; the records it found are still there, in their
    places: the log before is a prefix of the log after. *)
Theorem track_click_appends_at_most_one (req : request) (clk : clock) (w : world) :
  ((data_file (track_click req clk w).2 = data_file w ∧
    csv_file (track_click req clk w).2 = csv_file w ∧
    stored_log (track_click req clk w).2 = stored_log w) ∨
   (∃ r, stored_log (track_click req clk w).2 = stored_log w ++ [r])) ∧
  stored_log w `prefix_of` stored_log (track_click req clk w).2.
Proof.
  destruct (track_click_log req clk w) as [(Hd & Hc & Hlog)|Hlog].
  - split; [left; done|]. rewrite Hlog. reflexivity.
  - split; [right; eauto|]. rewrite Hlog. apply prefix_app_r. reflexivity.
Qed.

(** Claim C5, as worded, fails: the time stamp comes from [datetime.now()],
    the local wall-clock time of the host, and on a host that is not on UTC
    it is not the UTC time of the request. *)
Lemma utc_timestamp_counterexample :
  stored_log (track_click curl_request noon_utc no_files).2
  = stored_log no_files ++ [record_json (record_at "2026-01-05T14:00:00" curl_request)] ∧
  isoformat (datetime_utcnow noon_utc) = "2026-01-05T12:00:00" ∧
  record_json (record_at "2026-01-05T14:00:00" curl_request)
  ≠ record_json (record_at (isoformat (datetime_utcnow noon_utc)) curl_request).
Proof. split; [reflexivity|]. split; [reflexivity|]. vm_compute. discriminate. Qed.

(** Claim C5, amended: a record appended by the track handler carries the
    resolved IP, the local wall-clock time of the host at the request (the
    reading of [datetime.now()], as a naive ISO-8601 string) and the
    [User-Agent] header of the request, or ["Unknown"] when the request has
    none. *)
Theorem appended_record_fields (req : request) (clk : clock) (w : world) (r : json) :
  stored_log (track_click req clk w).2 = stored_log w ++ [r] →
  r = JObj [("ip", JStr (get_client_ip req));
            ("timestamp", JStr (isoformat (localtime clk)));
            ("user_agent", JStr (default "Unknown" (headers req !! "User-Agent")))].
Proof.
  intros Hr. destruct (track_click_log req clk w) as [(_ & _ & Hlog)|Hlog].
  - rewrite Hlog in Hr. apply (f_equal length) in Hr.
    rewrite length_app in Hr. simpl in Hr. lia.
  - rewrite Hlog in Hr. apply app_inj_tail in Hr as [_ <-]. reflexivity.
Qed.

Lemma appended_record_fields_witness :
  stored_log (track_click curl_request noon_utc no_files).2
  = stored_log no_files ++ [record_json (record_at "2026-01-05T14:00:00" curl_request)] ∧
  record_json (record_at "2026-01-05T14:00:00" curl_request)
  = JObj [("ip", JStr "10.0.0.1"); ("timestamp", JStr "2026-01-05T14:00:00");
          ("user_agent", JStr "curl/8.0")].
Proof.
  split; [reflexivity|].
  exact (appended_record_fields curl_request noon_utc no_files
           (record_json (record_at "2026-01-05T14:00:00" curl_request)) eq_refl).
Defined.

(** ** Sequential calls *)

Lemma serve_app (l1 l2 : list call) (w : world) :
  serve (l1 ++ l2) w =
  ((serve l1 w).1 ++ (serve l2 (serve l1 w).2).1, (serve l2 (serve l1 w).2).2).
Proof.
  revert w. induction l1 as [|c l1 IH]; intros w; simpl.
  - destruct (serve l2 w); reflexivity.
  - rewrite IH. reflexivity.
Qed.

Lemma first_from_app_l (calls : list call) (c0 : call) (i : nat) (c : call) :
  (i < length calls)%nat →
  first_from (calls ++ [c0]) i c ↔ first_from calls i c.
Proof.
  intros Hi. unfold first_from. rewrite lookup_app_l by exact Hi.
  split; intros [Hc Hfirst]; (split; [exact Hc|]); intros j c' Hj Hc'.
  - apply (Hfirst j c' Hj). rewrite lookup_app_l by lia. exact Hc'.
  - apply (Hfirst j c' Hj). rewrite lookup_app_l in Hc' by lia. exact Hc'.
Qed.

Lemma first_from_last (calls : list call) (c0 : call) (i : nat) (c : call) :
  (length calls ≤ i)%nat →
  first_from (calls ++ [c0]) i c ↔
  i = length calls ∧ c = c0 ∧ call_ip c0 ∉ call_ip <$> calls.
Proof.
  intros Hi. unfold first_from. split.
  - intros [Hc Hfirst].
    assert (i = length calls) as ->.
    { apply lookup_lt_Some in Hc. rewrite length_app in Hc. simpl in Hc. lia. }
    rewrite list_lookup_middle in Hc by reflexivity. injection Hc as <-.
    split; [reflexivity|]. split; [reflexivity|].
    intros (c' & Heq & [j Hj]%list_elem_of_lookup)%list_elem_of_fmap.
    apply (Hfirst j c'); [eapply lookup_lt_Some; exact Hj| |congruence].
    rewrite lookup_app_l by (eapply lookup_lt_Some; exact Hj). exact Hj.
  - intros (-> & -> & Hnew). split; [apply list_lookup_middle; reflexivity|].
    intros j c' Hj Hc' Heq. apply Hnew. rewrite <- Heq.
    rewrite lookup_app_l in Hc' by exact Hj.
    apply list_elem_of_fmap. exists c'. split; [reflexivity|].
    apply list_elem_of_lookup. eauto.
Qed.

(** What holds of the store after a sequence of calls that started on an
    empty log. *)
Lemma serve_invariant (calls : list call) (w0 : world) :
  data_writable w0 = true →
  loaded (data_file w0) = Ok empty_log →
  ∃ log : list ClickRecord,
    (serve calls w0).1 = replicate (length calls) (Ok (Redirect TARGET_URL 302)) ∧
    loaded (data_file (serve calls w0).2) = Ok (log_json log) ∧
    (∀ x, x ∈ ip <$> log ↔ x ∈ call_ip <$> calls) ∧
    NoDup (ip <$> log) ∧
    (∀ r, r ∈ log ↔ ∃ i c, first_from calls i c ∧ r = call_record c) ∧
    data_writable (serve calls w0).2 = true.
Proof.
  intros Hwritable Hempty. induction calls as [|c calls IH] using rev_ind.
  - exists []. simpl. split; [reflexivity|]. split; [exact Hempty|].
    split; [reflexivity|]. split; [constructor|]. split; [|exact Hwritable].
    intros r. split; [intros H; inversion H|].
    intros (i & c & [Hc _] & _). rewrite lookup_nil in Hc. discriminate.
  - destruct IH as (log & Hres & Hload & Hips & Hnodup & Hfirst & Hw).
    rewrite serve_app. simpl serve.
    rewrite (track_click_typed c.1 c.2 _ log Hw Hload). cbn [fst snd].
    assert (Hresp : (serve calls w0).1 ++ [Ok (Redirect TARGET_URL 302)]
                    = replicate (length (calls ++ [c])) (Ok (Redirect TARGET_URL 302))).
    { rewrite Hres, length_app, Nat.add_comm. simpl.
      rewrite replicate_cons_app. reflexivity. }
    destruct (bool_decide (get_client_ip c.1 ∈ ip <$> log)) eqn:Hseen.
    + apply bool_decide_eq_true in Hseen.
      exists log. split; [exact Hresp|]. split; [exact Hload|].
      split; [|split; [exact Hnodup|split; [|exact Hw]]].
      * intros x. rewrite fmap_app, elem_of_app, Hips. simpl.
        rewrite list_elem_of_singleton. split; [auto|].
        intros [H| ->]; [exact H|]. apply Hips. exact Hseen.
      * intros r. rewrite Hfirst. split.
        -- intros (i & c' & Hf & ->). exists i, c'. split; [|reflexivity].
           apply first_from_app_l; [|exact Hf].
           destruct Hf as [Hc' _]. eapply lookup_lt_Some. exact Hc'.
        -- intros (i & c' & Hf & ->). exists i, c'. split; [|reflexivity].
           destruct (decide (i < length calls)%nat) as [Hi|Hi].
           ++ apply (first_from_app_l calls c i c' Hi). exact Hf.
           ++ apply first_from_last in Hf as (_ & _ & Hnew); [|lia].
              destruct Hnew. apply Hips. exact Hseen.
    + apply bool_decide_eq_false in Hseen.
      exists (log ++ [call_record c]).
      replace (c.1, c.2) with c by (destruct c; reflexivity).
      split; [exact Hresp|]. split; [reflexivity|].
      split; [|split; [|split; [|reflexivity]]].
      * intros x. rewrite !fmap_app, !elem_of_app, Hips. reflexivity.
      * rewrite fmap_app. apply NoDup_app. split; [exact Hnodup|].
        split; [|apply NoDup_singleton].
        intros x Hx Hx'. apply list_elem_of_singleton in Hx'. subst x. exact (Hseen Hx).
      * intros r. rewrite elem_of_app, Hfirst, list_elem_of_singleton. split.
        -- intros [(i & c' & Hf & ->)| ->].
           ++ exists i, c'. split; [|reflexivity].
              apply first_from_app_l; [|exact Hf].
              destruct Hf as [Hc' _]. eapply lookup_lt_Some. exact Hc'.
           ++ exists (length calls), c. split; [|reflexivity].
              apply first_from_last; [lia|]. split; [reflexivity|].
              split; [reflexivity|]. intros Hin. apply Hseen, Hips, Hin.
        -- intros (i & c' & Hf & ->).
           destruct (decide (i < length calls)%nat) as [Hi|Hi].
           ++ left. exists i, c'. split; [|reflexivity].
              apply (first_from_app_l calls c i c' Hi). exact Hf.
           ++ right. apply first_from_last in Hf as (_ & -> & _); [reflexivity|lia].
Qed.

(** Claim C1: [N] calls of the track handler, one after the other, from [K]
    distinct resolved addresses, on a store that starts with an empty log
    (the data file is absent, or holds text that is not JSON, or holds an
    empty click list; a path that cannot be opened is not a store),
    leave a log of exactly [K] records, one for each address, and the record
    of an address is the one made by the first call from it, with that call's
    time stamp and user agent; one more call from an address already recorded
    is answered with the redirect and changes neither file. *)
Theorem sequential_tracks_unique (calls : list call) (w0 : world) :
  data_writable w0 = true →
  loaded (data_file w0) = Ok empty_log →
  ∃ log : list ClickRecord,
    stored_log (serve calls w0).2 = record_json <$> log ∧
    length log = size (list_to_set (call_ip <$> calls) : gset string) ∧
    NoDup (ip <$> log) ∧
    (∀ x, x ∈ ip <$> log ↔ x ∈ call_ip <$> calls) ∧
    (∀ r, r ∈ log ↔ ∃ i c, first_from calls i c ∧ r = call_record c) ∧
    (∀ c, call_ip c ∈ call_ip <$> calls →
       (serve (calls ++ [c]) w0).1 = (serve calls w0).1 ++ [Ok (Redirect TARGET_URL 302)] ∧
       data_file (serve (calls ++ [c]) w0).2 = data_file (serve calls w0).2 ∧
       csv_file (serve (calls ++ [c]) w0).2 = csv_file (serve calls w0).2 ∧
       stored_log (serve (calls ++ [c]) w0).2 = stored_log (serve calls w0).2).
Proof.
  intros Hwritable Hempty.
  destruct (serve_invariant calls w0 Hwritable Hempty)
    as (log & _ & Hload & Hips & Hnodup & Hfirst & Hw).
  exists log. split; [|split; [|split; [exact Hnodup|split; [exact Hips|split; [exact Hfirst|]]]]].
  - unfold stored_log, store_clicks. rewrite Hload. reflexivity.
  - rewrite <- (length_fmap ip log), <- (size_list_to_set (C := gset string)) by exact Hnodup.
    f_equal. apply set_eq. intros x. rewrite !elem_of_list_to_set. apply Hips.
  - intros c Hc. rewrite serve_app. simpl serve.
    rewrite (track_click_typed c.1 c.2 _ log Hw Hload). cbn [fst snd].
    apply Hips in Hc. unfold call_ip in Hc.
    rewrite (bool_decide_eq_true_2 _ Hc). done.
Qed.

Lemma sequential_tracks_unique_witness :
  data_writable no_files = true ∧
  loaded (data_file no_files) = Ok empty_log ∧
  ∃ log : list ClickRecord,
    stored_log (serve [(curl_request, noon_utc); (curl_request, noon_utc)] no_files).2
      = record_json <$> log ∧
    length log
      = size (list_to_set (call_ip <$> [(curl_request, noon_utc); (curl_request, noon_utc)])
                : gset string).
Proof.
  split; [reflexivity|]. split; [reflexivity|].
  destruct (sequential_tracks_unique
              [(curl_request, noon_utc); (curl_request, noon_utc)] no_files eq_refl eq_refl)
    as (log & Hlog & Hlen & _).
  exists log. split; [exact Hlog|exact Hlen].
Defined.

(** The scenario of the description: one call from 10.0.0.1 with curl's user
    agent on an empty store, then a second call from the same peer. *)
Example first_and_second_call :
  stored_log (serve [(curl_request, noon_utc)] no_files).2
  = [JObj [("ip", JStr "10.0.0.1"); ("timestamp", JStr "2026-01-05T14:00:00");
           ("user_agent", JStr "curl/8.0")]] ∧
  stored_log (serve [(curl_request, noon_utc); (curl_request, noon_utc)] no_files).2
  = stored_log (serve [(curl_request, noon_utc)] no_files).2.
Proof. split; reflexivity. Qed.

(** * Further properties of the code *)

(** ** The store *)

(** Property X1: when the data file can be opened, whatever [save_data] does
    after it has written the JSON file, also when the CSV rewrite ends in an
    exception, the next [load_data] returns the saved value, and reads
    without writing.  When the data file cannot be opened, [save_data] ends
    in the exception of [open] and writes nothing. *)
Theorem save_then_load (data : json) (w : world) :
  (data_writable w = true →
   load_data (save_data data w).2 = (Ok data, (save_data data w).2)) ∧
  (data_writable w = false → save_data data w = (Raise IOError, w)).
Proof.
  split; [|apply save_data_unwritable].
  intros Hw. rewrite load_data_eq.
  destruct (save_data_frame data w Hw) as [-> _]. reflexivity.
Qed.

Lemma save_then_load_witness :
  (save_data patchy_log no_files).1 = Raise (KeyError "timestamp") ∧
  (load_data (save_data patchy_log no_files).2).1 = Ok patchy_log ∧
  save_data patchy_log (World (Some Unreadable) None [])
  = (Raise IOError, World (Some Unreadable) None []).
Proof.
  split; [reflexivity|]. split.
  - rewrite (proj1 (save_then_load patchy_log no_files) eq_refl). reflexivity.
  - exact (proj2 (save_then_load patchy_log (World (Some Unreadable) None [])) eq_refl).
Defined.

Lemma csv_row_of_record (v : json) :
  (∃ row, csv_row_of v = Ok row) ↔ is_record v = true.
Proof.
  split; [|apply is_record_row].
  intros [row Hrow]. unfold csv_row_of in Hrow.
  destruct v as [| | | | | |m]; try discriminate. simpl in *.
  destruct (dict_lookup "ip" m) as [x|]; [|discriminate].
  destruct (dict_lookup "timestamp" m) as [y|]; [|discriminate].
  reflexivity.
Qed.

(** Property X2: [save_data] runs to its end exactly when the data file can
    be opened, [data['clicks']] is there, can be iterated, and each of its
    elements is a dictionary with the keys [ip] and [timestamp]; a missing
    [user_agent] does not stop it. *)
Theorem save_data_succeeds_iff (data : json) (w : world) :
  (save_data data w).1 = Ok tt ↔
  data_writable w = true ∧
  ∃ c l, py_getitem data "clicks" = Ok c ∧ py_iter c = Ok l ∧ forallb is_record l = true.
Proof.
  split.
  - intros H. destruct (save_data_ok_inv data w H) as (Hw & c & l & rows & Hc & Hl & Hrows).
    split; [exact Hw|].
    exists c, l. split; [exact Hc|]. split; [exact Hl|].
    apply forallb_Forall_true. apply comprehension_Forall2 in Hrows.
    clear Hl. induction Hrows as [|v row l rows Hv _ IH]; constructor; [|exact IH].
    apply csv_row_of_record. eauto.
  - intros (Hw & c & l & Hc & Hl & Hrec). apply forallb_Forall_true in Hrec.
    destruct (comprehension_defined csv_row_of l) as [rows Hrows].
    { eapply Forall_impl; [exact Hrec|]. intros v Hv. apply is_record_row, Hv. }
    rewrite (save_data_ok data c l rows w Hw Hc Hl Hrows). reflexivity.
Qed.

Lemma save_data_succeeds_iff_witness :
  (save_data (JObj [("clicks", JArr [JObj [("ip", JStr "10.0.0.1");
                                             ("timestamp", JStr "2026-01-05T14:00:00")]])])
     no_files).1 = Ok tt.
Proof.
  apply (proj2 (save_data_succeeds_iff _ no_files)).
  split; [reflexivity|].
  exists (JArr [JObj [("ip", JStr "10.0.0.1"); ("timestamp", JStr "2026-01-05T14:00:00")]]),
         [JObj [("ip", JStr "10.0.0.1"); ("timestamp", JStr "2026-01-05T14:00:00")]].
  repeat split.
Defined.

Section WriteRowsFailing.

Variable body : json → M unit.
Hypothesis body_eq : ∀ click w,
  body click w =
  match csv_row_of click with
  | Ok row => writerow row w
  | Raise e => (Raise e, w)
  end.

Lemma for_each_stops (good rest : list json) (bad : json) (rows : list csv_row)
    (e : exn) (w : world) :
  comprehension csv_row_of good = Ok rows →
  csv_row_of bad = Raise e →
  for_each (good ++ bad :: rest) body w =
  (Raise e, match good with
            | [] => w
            | _ => World (data_file w) (Some (default [] (csv_file w) ++ rows)) (stdout w)
            end).
Proof.
  revert rows w. induction good as [|x good IH]; intros rows w Hrows Hbad; simpl.
  - unfold mbind, M_bind. rewrite body_eq, Hbad. reflexivity.
  - simpl in Hrows. destruct (csv_row_of x) as [row|] eqn:Hx; [|discriminate].
    destruct (comprehension csv_row_of good) as [rows'|] eqn:Hgood; [|discriminate].
    injection Hrows as <-. unfold mbind, M_bind. rewrite body_eq, Hx. simpl.
    rewrite (IH rows' _ eq_refl Hbad). destruct good as [|x' good'].
    + simpl in Hgood. injection Hgood as <-. reflexivity.
    + simpl. rewrite <- (assoc_L (++)). reflexivity.
Qed.

End WriteRowsFailing.

(** Property X3: when the data file can be opened and an element of
    [data['clicks']] has no [ip] or [timestamp], [save_data] ends in the
    exception of the first such element;
    by then the JSON file holds all of [data], and the CSV file holds the
    header and the rows of the elements before that one only. *)
Theorem save_data_stops_at_bad_record (data c : json) (good rest : list json) (bad : json)
    (rows : list csv_row) (e : exn) (w : world) :
  data_writable w = true →
  py_getitem data "clicks" = Ok c →
  py_iter c = Ok (good ++ bad :: rest) →
  comprehension csv_row_of good = Ok rows →
  csv_row_of bad = Raise e →
  save_data data w =
  (Raise e, World (Some (Document data)) (Some (csv_header :: rows)) (stdout w)).
Proof.
  intros Hw Hc Hl Hrows Hbad.
  rewrite save_data_eq, Hw, bind_lift, Hc, bind_lift, Hl.
  rewrite (for_each_stops _ save_data_body good rest bad rows e _ Hrows Hbad).
  destruct good; [|reflexivity].
  simpl in Hrows. injection Hrows as <-. reflexivity.
Qed.

Lemma save_data_stops_at_bad_record_witness :
  save_data patchy_log no_files =
  (Raise (KeyError "timestamp"),
   World (Some (Document patchy_log))
         (Some [csv_header; [JStr "10.0.0.1"; JStr "2026-01-05T14:00:00"; JStr "N/A"]])
         []).
Proof.
  apply (save_data_stops_at_bad_record patchy_log
           (JArr [JObj [("ip", JStr "10.0.0.1"); ("timestamp", JStr "2026-01-05T14:00:00")];
                  JObj [("ip", JStr "10.0.0.2")];
                  JObj [("ip", JStr "10.0.0.3"); ("timestamp", JStr "2026-01-05T15:00:00")]])
           [JObj [("ip", JStr "10.0.0.1"); ("timestamp", JStr "2026-01-05T14:00:00")]]
           [JObj [("ip", JStr "10.0.0.3"); ("timestamp", JStr "2026-01-05T15:00:00")]]
           (JObj [("ip", JStr "10.0.0.2")]));
    reflexivity.
Defined.

(** ** The track handler *)

Lemma dict_lookup_store_ne {V : Type} (k k' : string) (v : V) (m : list (string * V)) :
  k ≠ k' → dict_lookup k (dict_store k' v m) = dict_lookup k m.
Proof.
  intros Hne. induction m as [|[k0 v0] m IH]; simpl.
  - destruct (String.eqb_spec k k'); [contradiction|reflexivity].
  - destruct (String.eqb_spec k' k0) as [<-|Hk0]; simpl.
    + destruct (String.eqb_spec k k'); [contradiction|reflexivity].
    + destruct (String.eqb k k0); [reflexivity|exact IH].
Qed.

(** Property X4: [track_click] rewrites the whole document it loaded, so a
    top-level member other than ["clicks"] is the same after the call as
    before, whether or not a record was added. *)
Theorem track_click_keeps_other_members (req : request) (clk : clock) (w : world) (k : string) :
  k ≠ "clicks" →
  store_member (track_click req clk w).2 k = store_member w k.
Proof.
  intros Hk. unfold store_member.
  destruct (track_click_effect req clk w) as [[Hd _]|(m & l & Hload & Hm & Hd)].
  - rewrite Hd. reflexivity.
  - rewrite Hd, Hload. simpl. apply dict_lookup_store_ne, Hk.
Qed.

Lemma track_click_keeps_other_members_witness :
  store_member (track_click (bare_request "10.0.0.9") noon_utc (store_with patchy_log)).2 "owner"
  = Some (JStr "ops") ∧
  data_file (track_click (bare_request "10.0.0.9") noon_utc (store_with patchy_log)).2
  ≠ data_file (store_with patchy_log).
Proof.
  split.
  - rewrite (track_click_keeps_other_members (bare_request "10.0.0.9") noon_utc
               (store_with patchy_log) "owner"); [reflexivity|discriminate].
  - vm_compute. discriminate.
Defined.

Lemma comprehension_app {A B : Type} (f : A → result B) (l1 l2 : list A) (ys1 ys2 : list B) :
  comprehension f l1 = Ok ys1 → comprehension f l2 = Ok ys2 →
  comprehension f (l1 ++ l2) = Ok (ys1 ++ ys2).
Proof.
  rewrite !comprehension_Forall2. apply Forall2_app.
Qed.

Lemma py_in_recorded (addr : string) (l ips : list json) :
  comprehension (λ click, py_getitem click "ip") l = Ok ips →
  py_in addr ips = recorded addr l.
Proof.
  rewrite comprehension_Forall2. unfold py_in, recorded.
  induction 1 as [|v x l ips Hv _ IH]; simpl; [reflexivity|].
  rewrite Hv, IH. reflexivity.
Qed.

(** [track_click] once the scan of the stored list has gone through. *)
Lemma track_click_scanned (req : request) (clk : clock) (w : world)
    (m : list (string * json)) (l ips : list json) :
  loaded (data_file w) = Ok (JObj m) →
  dict_lookup "clicks" m = Some (JArr l) →
  comprehension (λ click, py_getitem click "ip") l = Ok ips →
  track_click req clk w =
  if recorded (get_client_ip req) l then
    (Ok (Redirect TARGET_URL 302), say (returning_visitor_line req clk) w)
  else
    match save_data (JObj (dict_store "clicks" (JArr (l ++ [click_record req clk])) m)) w with
    | (Raise e, w') => (Raise e, w')
    | (Ok _, w') => (Ok (Redirect TARGET_URL 302), say (new_visitor_line req clk) w')
    end.
Proof.
  intros Hload Hm Hips. rewrite track_click_eq, Hload. simpl py_getitem. rewrite Hm.
  simpl py_iter. cbv iota beta. rewrite Hips, (py_in_recorded _ l ips Hips).
  reflexivity.
Qed.

Lemma not_longer_by_one {A : Type} (l : list A) (x : A) : l ≠ l ++ [x].
Proof.
  intros H. apply (f_equal length) in H. rewrite length_app in H. simpl in H. lia.
Qed.

(** When the log came out longer, the handler went through its recording
    branch. *)
Lemma track_click_appended (req : request) (clk : clock) (w : world) (r : json) :
  stored_log (track_click req clk w).2 = stored_log w ++ [r] →
  ∃ m l ips,
    loaded (data_file w) = Ok (JObj m) ∧
    dict_lookup "clicks" m = Some (JArr l) ∧
    comprehension (λ click, py_getitem click "ip") l = Ok ips ∧
    data_file (track_click req clk w).2 =
      Some (Document (JObj (dict_store "clicks" (JArr (l ++ [click_record req clk])) m))).
Proof.
  rewrite track_click_eq.
  destruct (loaded (data_file w)) as [data|e] eqn:Hload;
    [|intros H; destruct (not_longer_by_one (stored_log w) r H)].
  destruct (py_getitem data "clicks") as [clicks|e] eqn:Hclicks;
    [|intros H; destruct (not_longer_by_one (stored_log w) r H)].
  destruct (py_iter clicks) as [elems|e] eqn:Helems;
    [|intros H; destruct (not_longer_by_one (stored_log w) r H)].
  destruct (comprehension _ elems) as [ips|e] eqn:Hips;
    [|intros H; destruct (not_longer_by_one (stored_log w) r H)].
  destruct (py_in (get_client_ip req) ips);
    [intros H; destruct (not_longer_by_one (stored_log w) r H)|].
  destruct clicks as [| | | | |l|]; try (intros H; destruct (not_longer_by_one (stored_log w) r H)).
  destruct data as [| | | | | |m]; try discriminate.
  simpl in Hclicks. destruct (dict_lookup "clicks" m) as [v|] eqn:Hm; [|discriminate].
  injection Hclicks as ->. simpl in Helems. injection Helems as <-.
  simpl py_append. cbv iota beta.
  destruct (data_writable w) eqn:Hw.
  - intros _. exists m, l, ips. repeat (split; [done|]).
    pose proof (save_data_frame
                  (with_clicks (JObj m) (JArr (l ++ [click_record req clk]))) w Hw) as [Hd _].
    destruct (save_data _ w) as [[[]|e] w']; exact Hd.
  - rewrite save_data_unwritable by exact Hw.
    intros H. destruct (not_longer_by_one (stored_log w) r H).
Qed.

(** Property X5: once [track_click] has put a record into the log, also when
    it then failed to rewrite the CSV file, a later call that resolves to the
    same address finds it: the call is answered with the redirect, reports a
    returning visitor and leaves both files as they are. *)
Theorem recorded_visitor_returns (req req' : request) (clk clk' : clock) (w : world) (r : json) :
  stored_log (track_click req clk w).2 = stored_log w ++ [r] →
  get_client_ip req' = get_client_ip req →
  track_click req' clk' (track_click req clk w).2 =
  (Ok (Redirect TARGET_URL 302),
   say (returning_visitor_line req' clk') (track_click req clk w).2).
Proof.
  intros Hlog Hsame.
  destruct (track_click_appended req clk w r Hlog) as (m & l & ips & Hload & Hm & Hips & Hd).
  rewrite (track_click_scanned req' clk' _
             (dict_store "clicks" (JArr (l ++ [click_record req clk])) m)
             (l ++ [click_record req clk]) (ips ++ [JStr (get_client_ip req)])).
  - replace (recorded (get_client_ip req') (l ++ [click_record req clk])) with true;
      [reflexivity|].
    unfold recorded. rewrite existsb_app, Hsame. simpl.
    rewrite String.eqb_refl, orb_true_r. reflexivity.
  - rewrite Hd. reflexivity.
  - apply dict_lookup_store.
  - apply comprehension_app; [exact Hips|reflexivity].
Qed.

Lemma recorded_visitor_returns_witness :
  stored_log (track_click (bare_request "10.0.0.9") noon_utc (store_with patchy_log)).2
  = stored_log (store_with patchy_log) ++ [click_record (bare_request "10.0.0.9") noon_utc] ∧
  (track_click (bare_request "10.0.0.9") noon_utc (store_with patchy_log)).1
  = Raise (KeyError "timestamp") ∧
  (track_click (bare_request "10.0.0.9") noon_utc
     (track_click (bare_request "10.0.0.9") noon_utc (store_with patchy_log)).2).1
  = Ok (Redirect TARGET_URL 302).
Proof.
  split; [reflexivity|]. split; [reflexivity|].
  rewrite (recorded_visitor_returns (bare_request "10.0.0.9") (bare_request "10.0.0.9")
             noon_utc noon_utc (store_with patchy_log)
             (click_record (bare_request "10.0.0.9") noon_utc) eq_refl eq_refl).
  reflexivity.
Defined.

(** Property X6: on a store that holds a click log, [track_click] decides by
    the recorded addresses alone.  If the resolved address is the [ip] of a
    stored record, nothing is written and the console gets the line for a
    returning visitor.  If it is not, the new record goes to the end of the
    log and the CSV file is written afresh from the whole log, whatever it
    held before, so that it mirrors the log again. *)
Theorem track_click_decides_by_ip (req : request) (clk : clock) (w : world) :
  store_ok w = true →
  (recorded (get_client_ip req) (stored_log w) = true →
   track_click req clk w =
   (Ok (Redirect TARGET_URL 302), say (returning_visitor_line req clk) w)) ∧
  (recorded (get_client_ip req) (stored_log w) = false →
   (track_click req clk w).1 = Ok (Redirect TARGET_URL 302) ∧
   stored_log (track_click req clk w).2 = stored_log w ++ [click_record req clk] ∧
   csv_mirrors_log (track_click req clk w).2 ∧
   stdout (track_click req clk w).2 = stdout w ++ [new_visitor_line req clk]).
Proof.
  unfold store_ok, stored_log. intros [Hw Hall]%andb_true_iff.
  destruct (store_clicks w) as [l|] eqn:Hl; [|discriminate].
  apply forallb_Forall_true in Hall. simpl.
  destruct (store_clicks_loaded w l Hl) as (m & Hload & Hm).
  destruct (comprehension_defined (λ click, py_getitem click "ip") l) as [ips Hips].
  { eapply Forall_impl; [exact Hall|]. intros v Hv. apply is_record_ip, Hv. }
  rewrite (track_click_scanned req clk w m l ips Hload Hm Hips).
  split; intros ->; [reflexivity|].
  destruct (comprehension_defined csv_row_of (l ++ [click_record req clk])) as [rows Hrows].
  { apply Forall_app. split; [|repeat constructor; eauto].
    eapply Forall_impl; [exact Hall|]. intros v Hv. apply is_record_row, Hv. }
  rewrite (save_data_ok _ (JArr (l ++ [click_record req clk]))
             (l ++ [click_record req clk]) rows);
    [|exact Hw|simpl; rewrite dict_lookup_store; reflexivity|reflexivity|exact Hrows].
  assert (Hlog : store_clicks
                   (say (new_visitor_line req clk)
                      (World (Some (Document (JObj (dict_store "clicks"
                                                      (JArr (l ++ [click_record req clk])) m))))
                             (Some (csv_header :: rows)) (stdout w)))
                 = Some (l ++ [click_record req clk])).
  { unfold store_clicks. simpl. rewrite dict_lookup_store. reflexivity. }
  split; [reflexivity|]. split; [cbn [snd]; rewrite Hlog; reflexivity|].
  split; [|reflexivity].
  exists rows. unfold stored_log. cbn [snd]. rewrite Hlog. split; [exact Hrows|reflexivity].
Qed.

Lemma track_click_decides_by_ip_witness :
  store_ok (World None (Some [[JStr "stale"]]) []) = true ∧
  (track_click curl_request noon_utc (World None (Some [[JStr "stale"]]) [])).1
    = Ok (Redirect TARGET_URL 302) ∧
  csv_mirrors_log (track_click curl_request noon_utc (World None (Some [[JStr "stale"]]) [])).2.
Proof.
  split; [reflexivity|].
  destruct (proj2 (track_click_decides_by_ip curl_request noon_utc
                     (World None (Some [[JStr "stale"]]) []) eq_refl) eq_refl)
    as (Hres & _ & Hcsv & _).
  split; [exact Hres|exact Hcsv].
Defined.

(** Property X7: when [track_click] ends in an exception, either nothing at
    all has changed, the console included, or the exception came from the
    rewrite of the CSV file: then the JSON file already holds the log with the
    new record, and no line was printed. *)
Theorem track_click_exception_effect (req : request) (clk : clock) (w : world) (e : exn) :
  (track_click req clk w).1 = Raise e →
  (track_click req clk w).2 = w ∨
  (stored_log (track_click req clk w).2 = stored_log w ++ [click_record req clk] ∧
   stdout (track_click req clk w).2 = stdout w).
Proof.
  rewrite track_click_eq.
  destruct (loaded (data_file w)) as [data|e0] eqn:Hload; [|left; reflexivity].
  destruct (py_getitem data "clicks") as [clicks|e0] eqn:Hclicks; [|left; reflexivity].
  destruct (py_iter clicks) as [elems|e0]; [|left; reflexivity].
  destruct (comprehension _ elems) as [ips|e0]; [|left; reflexivity].
  destruct (py_in (get_client_ip req) ips); [discriminate|].
  destruct clicks as [| | | | |l|]; try (left; reflexivity).
  destruct data as [| | | | | |m]; try discriminate.
  simpl in Hclicks. destruct (dict_lookup "clicks" m) as [v|] eqn:Hm; [|discriminate].
  injection Hclicks as ->. simpl py_append. cbv iota beta.
  destruct (data_writable w) eqn:Hw;
    [|rewrite save_data_unwritable by exact Hw; left; reflexivity].
  pose proof (save_data_frame
                (with_clicks (JObj m) (JArr (l ++ [click_record req clk]))) w Hw) as [Hd Hout].
  destruct (save_data _ w) as [[[]|e0] w']; [discriminate|].
  intros _. right. cbn [snd] in *. split; [|exact Hout].
  unfold stored_log.
  destruct (store_clicks_appended w w' m l _ Hload Hm Hd) as [-> ->]. reflexivity.
Qed.

Lemma track_click_exception_effect_witness :
  (track_click (bare_request "10.0.0.9") noon_utc (store_with patchy_log)).1
  = Raise (KeyError "timestamp") ∧
  ((track_click (bare_request "10.0.0.9") noon_utc (store_with patchy_log)).2
   = store_with patchy_log ∨
   (stored_log (track_click (bare_request "10.0.0.9") noon_utc (store_with patchy_log)).2
    = stored_log (store_with patchy_log) ++ [click_record (bare_request "10.0.0.9") noon_utc] ∧
    stdout (track_click (bare_request "10.0.0.9") noon_utc (store_with patchy_log)).2
    = stdout (store_with patchy_log))).
Proof.
  split; [reflexivity|].
  exact (track_click_exception_effect (bare_request "10.0.0.9") noon_utc
           (store_with patchy_log) (KeyError "timestamp") eq_refl).
Defined.

(** ** Sequences of calls *)

Lemma first_calls_from_ips (seen : list string) (calls : list call) (x : string) :
  x ∈ call_ip <$> first_calls_from seen calls ↔ x ∈ call_ip <$> calls ∧ x ∉ seen.
Proof.
  revert seen. induction calls as [|c calls IH]; intros seen; cbn [first_calls_from].
  - rewrite fmap_nil, elem_of_nil. tauto.
  - rewrite (fmap_cons call_ip c calls), elem_of_cons.
    destruct (bool_decide (call_ip c ∈ seen)) eqn:Hc.
    + apply bool_decide_eq_true in Hc. rewrite IH. split; [tauto|].
      intros [[->|H] Hx]; [contradiction|tauto].
    + apply bool_decide_eq_false in Hc. rewrite fmap_cons, elem_of_cons, IH, not_elem_of_cons.
      split; [intros [->|H]; tauto|].
      destruct (decide (x = call_ip c)); tauto.
Qed.

Lemma first_calls_from_snoc (seen : list string) (calls : list call) (c : call) :
  first_calls_from seen (calls ++ [c]) =
  first_calls_from seen calls ++
  (if bool_decide (call_ip c ∈ seen ++ (call_ip <$> calls)) then [] else [c]).
Proof.
  revert seen. induction calls as [|c0 calls IH]; intros seen.
  - cbn [first_calls_from app]. rewrite fmap_nil, app_nil_r.
    destruct (bool_decide (call_ip c ∈ seen)); reflexivity.
  - rewrite <- app_comm_cons. cbn [first_calls_from]. rewrite fmap_cons.
    destruct (bool_decide (call_ip c0 ∈ seen)) eqn:Hc0.
    + apply bool_decide_eq_true in Hc0. rewrite IH. f_equal.
      rewrite (bool_decide_ext (call_ip c ∈ seen ++ (call_ip <$> calls))
                 (call_ip c ∈ seen ++ call_ip c0 :: (call_ip <$> calls))); [reflexivity|].
      rewrite !elem_of_app, elem_of_cons. split; [tauto|].
      intros [H|[->|H]]; tauto.
    + rewrite IH.
      rewrite (bool_decide_ext (call_ip c ∈ (call_ip c0 :: seen) ++ (call_ip <$> calls))
                 (call_ip c ∈ seen ++ call_ip c0 :: (call_ip <$> calls))); [reflexivity|].
      rewrite !elem_of_app, !elem_of_cons. tauto.
Qed.

Lemma call_record_ips (l : list call) : ip <$> (call_record <$> l) = call_ip <$> l.
Proof. rewrite <- list_fmap_compose. reflexivity. Qed.

(** Property X8: after calls served one after the other on a store that
    starts with an empty log, the log holds the records of the calls that
    were the first from their address, in the order these calls came; and as
    soon as one call was served, the CSV file holds the header and the rows
    of exactly these records, in the same order. *)
Theorem serve_keeps_arrival_order (calls : list call) (w0 : world) :
  data_writable w0 = true →
  loaded (data_file w0) = Ok empty_log →
  stored_log (serve calls w0).2 = record_json <$> (call_record <$> first_calls calls) ∧
  (calls ≠ [] →
   csv_file (serve calls w0).2
   = Some (csv_header :: (record_row <$> (call_record <$> first_calls calls)))).
Proof.
  intros Hwritable Hempty.
  assert (H : data_writable (serve calls w0).2 = true ∧
              loaded (data_file (serve calls w0).2)
              = Ok (log_json (call_record <$> first_calls calls)) ∧
              (calls ≠ [] →
               csv_file (serve calls w0).2
               = Some (csv_header :: (record_row <$> (call_record <$> first_calls calls))))).
  { induction calls as [|c calls IH] using rev_ind.
    - split; [exact Hwritable|]. split; [exact Hempty|]. intros H. destruct (H eq_refl).
    - destruct IH as (Hw & Hload & Hcsv). rewrite serve_app. simpl serve. cbn [fst snd].
      rewrite (track_click_typed c.1 c.2 _ _ Hw Hload). cbn [fst snd].
      unfold first_calls in *. rewrite first_calls_from_snoc, call_record_ips. simpl app.
      rewrite (bool_decide_ext (get_client_ip c.1 ∈ call_ip <$> first_calls_from [] calls)
                 (call_ip c ∈ call_ip <$> calls)).
      2:{ rewrite first_calls_from_ips. unfold call_ip. rewrite elem_of_nil. tauto. }
      destruct (bool_decide (call_ip c ∈ call_ip <$> calls)) eqn:Hc.
      + rewrite app_nil_r. split; [exact Hw|]. split; [exact Hload|]. intros _. apply Hcsv.
        apply bool_decide_eq_true in Hc. intros ->. rewrite elem_of_nil in Hc. exact Hc.
      + replace (c.1, c.2) with c by (destruct c; reflexivity).
        rewrite !fmap_app. split; [reflexivity|]. split; reflexivity. }
  destruct H as (_ & Hload & Hcsv). split; [|exact Hcsv].
  unfold stored_log, store_clicks. rewrite Hload. reflexivity.
Qed.

Lemma serve_keeps_arrival_order_witness :
  stored_log (serve [(bare_request "10.0.0.2", noon_utc); (curl_request, noon_utc);
                     (bare_request "10.0.0.2", noon_utc)] no_files).2
  = record_json <$> [call_record (bare_request "10.0.0.2", noon_utc);
                     call_record (curl_request, noon_utc)].
Proof.
  exact (proj1 (serve_keeps_arrival_order
                  [(bare_request "10.0.0.2", noon_utc); (curl_request, noon_utc);
                   (bare_request "10.0.0.2", noon_utc)] no_files eq_refl eq_refl)).
Defined.

(** Property X9: after calls served one after the other on a store that
    starts with an empty log, the JSON statistics view reports as many unique
    visitors as there are distinct resolved addresses among the calls, with a
    list of that many clicks. *)
Theorem api_stats_counts_distinct_addresses (calls : list call) (w0 : world) :
  data_writable w0 = true →
  loaded (data_file w0) = Ok empty_log →
  ∃ clicks : list json,
    length clicks = size (list_to_set (call_ip <$> calls) : gset string) ∧
    api_stats (serve calls w0).2
    = (Ok (Jsonify (JObj [("total_unique_visitors",
                           JInt (Z.of_nat (size (list_to_set (call_ip <$> calls) : gset string))));
                          ("clicks", JArr clicks);
                          ("target_url", JStr TARGET_URL)])),
       (serve calls w0).2).
Proof.
  intros Hwritable Hempty.
  destruct (serve_invariant calls w0 Hwritable Hempty)
    as (log & _ & Hload & Hips & Hnodup & _).
  assert (Hsize : length (record_json <$> log)
                  = size (list_to_set (call_ip <$> calls) : gset string)).
  { rewrite length_fmap, <- (length_fmap ip log).
    rewrite <- (size_list_to_set (C := gset string)) by exact Hnodup.
    f_equal. apply set_eq. intros x. rewrite !elem_of_list_to_set. apply Hips. }
  exists (record_json <$> log). split; [exact Hsize|].
  rewrite (surjective_pairing (api_stats _)), api_stats_world, api_stats_eq, Hload.
  simpl. rewrite Hsize. reflexivity.
Qed.

Lemma api_stats_counts_distinct_addresses_witness :
  ∃ clicks : list json,
    length clicks = 1%nat ∧
    api_stats (serve [(curl_request, noon_utc); (curl_request, noon_utc)] no_files).2
    = (Ok (Jsonify (JObj [("total_unique_visitors", JInt 1); ("clicks", JArr clicks);
                          ("target_url", JStr TARGET_URL)])),
       (serve [(curl_request, noon_utc); (curl_request, noon_utc)] no_files).2).
Proof.
  destruct (api_stats_counts_distinct_addresses
              [(curl_request, noon_utc); (curl_request, noon_utc)] no_files eq_refl eq_refl)
    as (clicks & Hlen & Hstats).
  exists clicks. split; [exact Hlen|exact Hstats].
Defined.

(** ** The two statistics views *)






(** ** The visitor table *)

Lemma digit_is_not_T (n : N) : Ascii.eqb (digit n) letter_T = false.
Proof.
  unfold digit. pose proof (N.mod_upper_bound n 10) as Hk.
  set (k := (n mod 10)%N) in *.
  assert (Hcases : k = 0%N ∨ k = 1%N ∨ k = 2%N ∨ k = 3%N ∨ k = 4%N ∨ k = 5%N ∨
                   k = 6%N ∨ k = 7%N ∨ k = 8%N ∨ k = 9%N) by lia.
  destruct Hcases as [->|[->|[->|[->|[->|[->|[->|[->|[->| ->]]]]]]]]]; reflexivity.
Qed.

(** Property X11: the visitor table shows the time stamp that [track_click]
    wrote as the date, a blank and the time to the second: the slice drops
    the microseconds, when there are any, and the [T] between date and time
    becomes a blank. *)
Theorem stats_page_shows_seconds (d : datetime) :
  display_timestamp (isoformat d) = date_and_time " " d ∧
  ∀ (req : request) (clk : clock),
    datetime_now clk = d →
    display_timestamp (timestamp (call_record (req, clk))) = date_and_time " " d.
Proof.
  assert (H : display_timestamp (isoformat d) = date_and_time " " d).
  { unfold display_timestamp, isoformat, date_and_time.
    cbv [zero_padded String.append py_slice_to py_replace].
    rewrite !digit_is_not_T. reflexivity. }
  split; [exact H|]. intros req clk <-. exact H.
Qed.

Lemma stats_page_shows_seconds_witness :
  display_timestamp (timestamp (call_record (curl_request,
                                            Clock (Datetime 2026 1 5 14 0 7 4500)
                                                  (Datetime 2026 1 5 12 0 7 4500))))
  = "2026-01-05 14:00:07".
Proof.
  exact (proj2 (stats_page_shows_seconds (Datetime 2026 1 5 14 0 7 4500)) curl_request
           (Clock (Datetime 2026 1 5 14 0 7 4500) (Datetime 2026 1 5 12 0 7 4500)) eq_refl).
Defined.

(** ** The resolver *)

Lemma has_comma_cons (c : ascii) (s : string) :
  has_comma (String c s) = Ascii.eqb comma c || has_comma s.
Proof. reflexivity. Qed.

Lemma first_element_no_comma (s : string) : has_comma (first_element s) = false.
Proof.
  induction s as [|c s IH]; cbn [first_element]; [reflexivity|].
  destruct (Ascii.eqb c comma) eqn:Hc; [reflexivity|].
  rewrite has_comma_cons, IH, Ascii.eqb_sym, Hc. reflexivity.
Qed.

Lemma py_lstrip_no_comma (s : string) : has_comma s = false → has_comma (py_lstrip s) = false.
Proof.
  induction s as [|c s IH]; cbn [py_lstrip]; [reflexivity|].
  rewrite has_comma_cons. intros [Hc Hs]%orb_false_iff.
  destruct (is_space c); [apply IH, Hs|]. rewrite has_comma_cons, Hc, Hs. reflexivity.
Qed.

Lemma py_rstrip_no_comma (s : string) : has_comma s = false → has_comma (py_rstrip s) = false.
Proof.
  induction s as [|c s IH]; cbn [py_rstrip]; [reflexivity|].
  rewrite has_comma_cons. intros [Hc Hs]%orb_false_iff. specialize (IH Hs).
  destruct (py_rstrip s) as [|c' r].
  - destruct (is_space c); [reflexivity|]. rewrite has_comma_cons, Hc. reflexivity.
  - rewrite has_comma_cons, Hc. exact IH.
Qed.

Lemma py_lstrip_start (s : string) : starts_with_space (py_lstrip s) = false.
Proof.
  induction s as [|c s IH]; cbn [py_lstrip]; [reflexivity|].
  destruct (is_space c) eqn:Hc; [exact IH|]. exact Hc.
Qed.

Lemma py_rstrip_start (s : string) :
  starts_with_space s = false → starts_with_space (py_rstrip s) = false.
Proof.
  destruct s as [|c s]; cbn [py_rstrip starts_with_space]; [reflexivity|]. intros Hc.
  destruct (py_rstrip s); [rewrite Hc|]; exact Hc.
Qed.

Lemma py_rstrip_end (s : string) : ends_with_space (py_rstrip s) = false.
Proof.
  induction s as [|c s IH]; cbn [py_rstrip]; [reflexivity|].
  destruct (py_rstrip s) as [|c' r].
  - destruct (is_space c) eqn:Hc; [reflexivity|exact Hc].
  - exact IH.
Qed.

(** Property X12: an address that the resolver takes from [X-Forwarded-For]
    is a single trimmed token: it holds no comma and neither starts nor ends
    with white space. *)
Theorem forwarded_address_is_trimmed_token (req : request) :
  truthy (headers req !! "X-Forwarded-For") = true →
  has_comma (get_client_ip req) = false ∧
  starts_with_space (get_client_ip req) = false ∧
  ends_with_space (get_client_ip req) = false.
Proof.
  intros Hxff. unfold get_client_ip. rewrite Hxff, py_split_hd. unfold py_strip.
  split; [|split].
  - apply py_rstrip_no_comma, py_lstrip_no_comma, first_element_no_comma.
  - apply py_rstrip_start, py_lstrip_start.
  - apply py_rstrip_end.
Qed.

Lemma forwarded_address_is_trimmed_token_witness :
  get_client_ip proxied_request = "1.2.3.4" ∧
  has_comma (get_client_ip proxied_request) = false ∧
  starts_with_space (get_client_ip proxied_request) = false ∧
  ends_with_space (get_client_ip proxied_request) = false.
Proof.
  split; [reflexivity|].
  exact (forwarded_address_is_trimmed_token proxied_request eq_refl).
Defined.

(** ** The rendered statistics page *)

Lemma visitor_rows_records (index : nat) (log : list ClickRecord) :
  visitor_rows index (record_json <$> log) =
  Ok (imap (λ i r, VisitorRow (index + i) (Some (JStr (ip r)))
                     (display_timestamp (timestamp r)) (Some (JStr (user_agent r)))) log).
Proof.
  revert index. induction log as [|r log IH]; intros index; [reflexivity|].
  rewrite fmap_cons. cbn [visitor_rows]. rewrite IH.
  change (jinja_first_visit (jinja_attr (record_json r) "timestamp"))
    with (Ok (A := string) (display_timestamp (timestamp r))).
  cbv iota beta. rewrite imap_cons, Nat.add_0_r. do 2 f_equal.
  apply imap_ext. intros i x _. simpl. f_equal. lia.
Qed.

(** Property X13: on a store that holds click records, the HTML statistics
    view is rendered with the number of records as its total and, when there
    is at least one record, a table with one row per record in the order of
    the log, numbered from 1, showing the record's [ip], its time stamp cut to
    the second with a blank for the [T], and its [user_agent]; for an empty
    log it is rendered with the line that says there are no visitors. *)
Theorem show_stats_renders_log (log : list ClickRecord) (w : world) :
  loaded (data_file w) = Ok (log_json log) →
  show_stats w =
  (Ok (RenderTemplate stats_template
         [("total_unique", JInt (Z.of_nat (length log)));
          ("clicks", JArr (record_json <$> log));
          ("target_url", JStr TARGET_URL); ("data_file", JStr DATA_FILE);
          ("csv_file", JStr CSV_FILE)]
         match log with
         | [] => NoVisitors
         | _ :: _ =>
             VisitorTable
               (imap (λ i r, VisitorRow (S i) (Some (JStr (ip r)))
                               (display_timestamp (timestamp r))
                               (Some (JStr (user_agent r)))) log)
         end),
   w).
Proof.
  intros Hload.
  rewrite (surjective_pairing (show_stats w)), show_stats_world, show_stats_eq, Hload.
  change (py_getitem (log_json log) "clicks") with (Ok (JArr (record_json <$> log))).
  cbv iota beta. simpl py_len. simpl py_iter. cbv iota beta.
  rewrite length_fmap. destruct log as [|r log]; [reflexivity|].
  unfold render_visitors. rewrite fmap_cons, <- fmap_cons, visitor_rows_records.
  reflexivity.
Qed.

Lemma show_stats_renders_log_witness :
  (show_stats (store_with (log_json three_visits))).1 =
  Ok (RenderTemplate stats_template
        [("total_unique", JInt 3); ("clicks", JArr (record_json <$> three_visits));
         ("target_url", JStr TARGET_URL); ("data_file", JStr DATA_FILE);
         ("csv_file", JStr CSV_FILE)]
        (VisitorTable
           [VisitorRow 1 (Some (JStr "10.0.0.3")) "2026-01-05 09:00:00" (Some (JStr "curl/8.0"));
            VisitorRow 2 (Some (JStr "10.0.0.1")) "2026-01-05 10:30:00"
                       (Some (JStr "Mozilla/5.0"));
            VisitorRow 3 (Some (JStr "10.0.0.2")) "2026-01-05 11:45:10"
                       (Some (JStr "Unknown"))])) ∧
  (show_stats no_files).1 =
  Ok (RenderTemplate stats_template
        [("total_unique", JInt 0); ("clicks", JArr []);
         ("target_url", JStr TARGET_URL); ("data_file", JStr DATA_FILE);
         ("csv_file", JStr CSV_FILE)]
        NoVisitors).
Proof.
  split.
  - rewrite (show_stats_renders_log three_visits (store_with (log_json three_visits)) eq_refl).
    reflexivity.
  - rewrite (show_stats_renders_log [] no_files eq_refl). reflexivity.
Defined.
